(** * Function simulator and problem catalogue: a shallow embedding

    The embedding follows the three source files that carry logic:
    - [types.ts]: the enumerations and parameter records;
    - [SimulatorView] (second document of [App.tsx]): the free-range sampler,
      the quadratic and exponential analyses, the saved-simulation list;
    - [ProblemsView.tsx]: the problem catalogue, its persistence, the
      scenario sampler, creation, selection and deletion.

    A JavaScript [number] is an IEEE 754 binary64 value, embedded as Rocq's
    primitive [float]; every arithmetic operator of the source is the
    primitive operation of the same name, so the definitions evaluate to the
    very doubles the program computes.  [Math.pow] is a host function whose
    result is implementation-approximated: the definitions take it as a
    parameter, and [JS.pow_ref] is one admissible implementation used to run
    the worked examples. *)

From Stdlib Require Import List String Ascii Bool ZArith Lia.
From Stdlib Require Import DecimalString DecimalPos DecimalN.
From Stdlib Require Import Floats.
Import ListNotations.

Set Warnings "-inexact-float".

(* ------------------------------------------------------------------ *)
(** ** JavaScript values and host functions *)

Module JS.

Local Open Scope float_scope.

Definition number : Type := float.

(** [Number.isNaN]. *)
Definition isNaN (v : number) : bool := negb (v =? v).

(** [ToBoolean] on a number: [+0], [-0] and [NaN] are falsy. *)
Definition truthy (v : number) : bool := negb (v =? 0) && (v =? v).

(** [e || d] where [e] is a number or [undefined]. *)
Definition or_number (e : option number) (d : number) : number :=
  match e with
  | Some v => if truthy v then v else d
  | None => d
  end.

(** [e || d] where [e] is a string or [undefined]: the empty string is
    falsy. *)
Definition or_string (e : option string) (d : string) : string :=
  match e with
  | Some EmptyString => d
  | Some s => s
  | None => d
  end.

(** [!name] for a string or [null]. *)
Definition falsy_string (e : option string) : bool :=
  match e with
  | Some EmptyString => true
  | Some _ => false
  | None => true
  end.

Definition Math_abs (v : number) : number := abs v.

Definition Math_sqrt (v : number) : number := sqrt v.

(** The double whose value is the integer [r] (exact for |r| <= 2^53). *)
Definition of_Z (r : Z) : number :=
  SF2Prim (binary_normalize prec emax r 0 false).

(** [Math.round]: the integral number closest to [x], ties towards
    +Infinity; [NaN], the infinities, the zeros and integral values are
    returned as they are, and a result of zero keeps the sign of [x]. *)
Definition Math_round (x : number) : number :=
  match Prim2SF x with
  | S754_finite s m e =>
      if (0 <=? e)%Z then x
      else
        let d := (2 ^ (- e))%Z in
        let n := if s then Z.neg m else Z.pos m in
        let r := ((2 * n + d) / (2 * d))%Z in
        if (r =? 0)%Z then (if s then (-0) else 0) else of_Z r
  | _ => x
  end.

(** Strip the factors two of a mantissa: [m * 2^e] with [e < 0] becomes
    [m' * 2^e'] with [m'] odd or [e' = 0]. *)
Fixpoint reduce (m : positive) (e : Z) : positive * Z :=
  match m with
  | xO m' => if (e <? 0)%Z then reduce m' (e + 1)%Z else (m, e)
  | _ => (m, e)
  end.

Fixpoint iter_sqrt (k : nat) (v : number) : number :=
  match k with
  | O => v
  | S k' => iter_sqrt k' (sqrt v)
  end.

(** A reference [Math.pow].  The special cases are those of ECMAScript's
    [Number::exponentiate]; in the remaining case, where the standard asks
    for an approximation of the mathematical power, the exponent (a dyadic
    rational [m / 2^k]) is served by [k] square roots and a binary power,
    which is exact whenever the mathematical result is a double reached
    through exact intermediate products (small integral powers). *)
Definition pow_ref (base exponent : number) : number :=
  if isNaN exponent then nan
  else if exponent =? 0 then 1
  else if isNaN base then nan
  else
    match Prim2SF exponent with
    | S754_infinity s =>
        let a := abs base in
        if a =? 1 then nan
        else if Bool.eqb (1 <? a) s then 0 else infinity
    | S754_finite s m e =>
        let '(m', e') := reduce m e in
        let integral := (0 <=? e')%Z in
        if negb integral && (base <? 0) && negb (base =? neg_infinity) then nan
        else
          let b := if integral then base else abs base in
          let r := iter_sqrt (Z.to_nat (- e')) b in
          let n := if integral then Pos.shiftl m' (Z.to_N e') else m' in
          let p := Pos.iter_op mul n r in
          if s then 1 / p else p
    | _ => nan
    end.

(** [for (let x = start; x <= stop; x += step) body]: the loop threads the
    array being filled.  Addition of doubles need not move [x] (a step far
    below the spacing of doubles at [x]), so the loop is run on fuel: [None]
    when the fuel is spent before the test [x <= stop] fails. *)
Fixpoint for_x {A : Type} (fuel : nat) (x stop step : number)
    (body : number -> A -> A) (acc : A) : option A :=
  match fuel with
  | O => None
  | S fuel' =>
      if x <=? stop then for_x fuel' (x + step) stop step body (body x acc)
      else Some acc
  end.

(** The values of [x] on which the body runs, and whether the test fails
    before the fuel is spent. *)
Fixpoint raw_xs (fuel : nat) (x stop step : number) : list number :=
  match fuel with
  | O => []
  | S fuel' =>
      if x <=? stop then x :: raw_xs fuel' (x + step) stop step else []
  end.

Fixpoint finishes (fuel : nat) (x stop step : number) : bool :=
  match fuel with
  | O => false
  | S fuel' => if x <=? stop then finishes fuel' (x + step) stop step else true
  end.

(** [n] values from [x] on, [step] apart. *)
Fixpoint grid (n : nat) (x step : number) : list number :=
  match n with
  | O => []
  | S n' => x :: grid n' (x + step) step
  end.

(** Every element is below all the later ones. *)
Fixpoint increasing (l : list number) : bool :=
  match l with
  | [] => true
  | v :: t => forallb (fun w => v <? w) t && increasing t
  end.

End JS.

(* ------------------------------------------------------------------ *)
(** ** [types.ts] *)

Module Types.

Import JS.

Inductive FunctionType := LINEAR | QUADRATIC | EXPONENTIAL | RATIONAL.

Record LinearParams := { m : number; n : number }.

Record QuadraticParams := { a : number; b : number; c : number }.

Record ExponentialParams := { base : number; k : number }.

(** [y2] is optional: present for comparisons only. *)
Record DataPoint := { x : number; y : number; y2 : option number }.

End Types.

(* ------------------------------------------------------------------ *)
(** ** [SimulatorView] *)

Module SimulatorView.

Import JS.
Local Open Scope float_scope.

(** [params: LinearParams | QuadraticParams | ExponentialParams]. *)
Inductive SimParams :=
| PLinear (p : Types.LinearParams)
| PQuadratic (p : Types.QuadraticParams)
| PExponential (p : Types.ExponentialParams).

(** [id] is [Date.now()], an integral number of milliseconds. *)
Record SavedSimulation := {
  id : Z;
  name : string;
  type : Types.FunctionType;
  params : SimParams;
  timestamp : string
}.

(** The component's state hooks. *)
Record State := {
  activeTab : Types.FunctionType;
  linear : Types.LinearParams;
  quadratic : Types.QuadraticParams;
  exponential : Types.ExponentialParams;
  range : number;
  savedSimulations : list SavedSimulation
}.

Definition initial : State := {|
  activeTab := Types.LINEAR;
  linear := {| Types.m := 2; Types.n := 1 |};
  quadratic := {| Types.a := 1; Types.b := -6; Types.c := 5 |};
  exponential := {| Types.base := 1.5; Types.k := 1 |};
  range := 10;
  savedSimulations := []
|}.

Section Host.

Variable Math_pow : number -> number -> number.

(** The value [y] of the loop body of [data], at the rounded abscissa. *)
Definition eval_y (st : State) (cleanX : number) : number :=
  match activeTab st with
  | Types.LINEAR =>
      Types.m (linear st) * cleanX + Types.n (linear st)
  | Types.QUADRATIC =>
      Types.a (quadratic st) * Math_pow cleanX 2
      + Types.b (quadratic st) * cleanX + Types.c (quadratic st)
  | Types.EXPONENTIAL =>
      if 0 <? Types.base (exponential st)
      then Types.k (exponential st) * Math_pow (Types.base (exponential st)) cleanX
      else nan
  | Types.RATIONAL => 0
  end.

Definition cleanX1 (x : number) : number := Math_round (x * 10) / 10.

(** One turn of the loop of [data]. *)
Definition data_body (st : State) (x : number) (points : list Types.DataPoint)
  : list Types.DataPoint :=
  let cleanX := cleanX1 x in
  let y := eval_y st cleanX in
  if Math_abs y <? 200
  then points ++ [ {| Types.x := cleanX; Types.y := y; Types.y2 := None |} ]
  else points.

(** The point at a rounded abscissa, the point of one turn, and the test
    it has to pass. *)
Definition at_x (st : State) (cleanX : number) : Types.DataPoint :=
  {| Types.x := cleanX; Types.y := eval_y st cleanX; Types.y2 := None |}.

Definition point (st : State) (x : number) : Types.DataPoint :=
  at_x st (cleanX1 x).

Definition plotted (p : Types.DataPoint) : bool :=
  Math_abs (Types.y p) <? 200.

Definition step : number := 0.5.

(** [data]: the sampled points of the active function. *)
Definition data (fuel : nat) (st : State) : option (list Types.DataPoint) :=
  let start := - Math_abs (range st) in
  let end_ := Math_abs (range st) in
  for_x fuel start end_ step (data_body st) [].

(** What [getQuadraticAnalysis] displays, before [toFixed(2)]. *)
Inductive Raices :=
| NoReales
| Una (r : number)
| Dos (r1 r2 : number).

Record QuadraticAnalysis := {
  concavidad : string;
  vertice : number * number;
  discriminante : number;
  raices : Raices
}.

Definition getQuadraticAnalysis (st : State) : QuadraticAnalysis :=
  let q := quadratic st in
  let vx := - Types.b q / (2 * Types.a q) in
  let vy := Types.a q * Math_pow vx 2 + Types.b q * vx + Types.c q in
  let delta := Math_pow (Types.b q) 2 - 4 * Types.a q * Types.c q in
  {| concavidad := if 0 <? Types.a q then "Convexa ∪" else "Cóncava ∩";
     vertice := (vx, vy);
     discriminante := delta;
     raices :=
       if delta <? 0 then NoReales
       else if delta =? 0 then Una vx
       else Dos ((- Types.b q + Math_sqrt delta) / (2 * Types.a q))
                ((- Types.b q - Math_sqrt delta) / (2 * Types.a q)) |}.

End Host.

(** The list items of the exponential tab's analysis box. *)
Record ExponentialAnalysis := {
  tipo : string;
  corteEjeY : number;
  asintota : string
}.

Definition exponentialAnalysis (st : State) : ExponentialAnalysis :=
  {| tipo := if 1 <? Types.base (exponential st) then "Creciente" else "Decreciente";
     corteEjeY := Types.k (exponential st);
     asintota := "y = 0" |}.

Definition with_saved (st : State) (l : list SavedSimulation) : State :=
  {| activeTab := activeTab st; linear := linear st; quadratic := quadratic st;
     exponential := exponential st; range := range st; savedSimulations := l |}.

(** [handleSave]: [answer] is what [prompt] returned ([None] for [null]),
    [now] is [Date.now()] and [today] is [new Date().toLocaleDateString()]. *)
Definition handleSave (answer : option string) (now : Z) (today : string)
    (st : State) : State :=
  if falsy_string answer then st
  else
    let params :=
      match activeTab st with
      | Types.LINEAR => PLinear (linear st)
      | Types.QUADRATIC => PQuadratic (quadratic st)
      | _ => PExponential (exponential st)
      end in
    let newSim := {| id := now; name := or_string answer EmptyString;
                     type := activeTab st; params := params;
                     timestamp := today |} in
    with_saved st (savedSimulations st ++ [newSim]).

(** [handleDelete]: [confirmed] is what [confirm] returned. *)
Definition handleDelete (confirmed : bool) (id0 : Z) (st : State) : State :=
  if confirmed
  then with_saved st (filter (fun s => negb (id s =? id0)%Z) (savedSimulations st))
  else st.

End SimulatorView.

(* ------------------------------------------------------------------ *)
(** ** [ProblemsView.tsx] *)

Module ProblemsView.

Import JS.
Local Open Scope float_scope.
Local Open Scope string_scope.

Inductive ProblemType :=
| linear_comparison
| exponential_growth
| exponential_decay
| linear_simple.

(** Every parameter is optional. *)
Record Params := {
  base : option number;
  initial : option number;
  slope : option number;
  intercept : option number;
  slope2 : option number;
  intercept2 : option number
}.

Record Labels := {
  x : string;
  y : string;
  series1 : string;
  series2 : option string
}.

Record Range := {
  min : number;
  max : number;
  step : number;
  defaultVal : number
}.

Record ProblemModel := {
  id : string;
  title : string;
  type : ProblemType;
  description : string;
  isCustom : bool;
  params : Params;
  labels : Labels;
  range : Range
}.


Definition DEFAULT_PROBLEMS : list ProblemModel := [
  {| id := "car_rental";
     title := "Alquiler de Vehículos";
     type := linear_comparison;
     description := "Comparación de costos entre dos compañías según la distancia.";
     isCustom := false;
     params := {| base := None; initial := None;
                  slope := Some 0.5; intercept := Some 45;
                  slope2 := Some 0.2; intercept2 := Some 60 |};
     labels := {| x := "Distancia (km)"; y := "Costo ($)";
                  series1 := "Compañía A"; series2 := Some "Compañía B" |};
     range := {| min := 0; max := 100; step := 1; defaultVal := 30 |} |};
  {| id := "snowball";
     title := "Bola de Nieve";
     type := exponential_growth;
     description := "Crecimiento de peso de una bola de nieve al rodar (5% por seg).";
     isCustom := false;
     params := {| base := Some 1.05; initial := Some 10;
                  slope := None; intercept := None;
                  slope2 := None; intercept2 := None |};
     labels := {| x := "Tiempo (s)"; y := "Peso (kg)";
                  series1 := "Peso"; series2 := None |};
     range := {| min := 0; max := 30; step := 1; defaultVal := 5 |} |};
  {| id := "anesthesia";
     title := "Concentración Anestesia";
     type := exponential_decay;
     description := "Eliminación de fármaco en sangre (5% por minuto).";
     isCustom := false;
     params := {| base := Some 0.95; initial := Some 100;
                  slope := None; intercept := None;
                  slope2 := None; intercept2 := None |};
     labels := {| x := "Tiempo (min)"; y := "Concentración (%)";
                  series1 := "Nivel"; series2 := None |};
     range := {| min := 0; max := 60; step := 1; defaultVal := 10 |} |}
].

Definition LOCAL_STORAGE_KEY : string := "math_simulator_custom_problems".

(** [localStorage]: [getItem] is application, [None] for [null]. *)
Definition Storage : Type := string -> option string.

Definition setItem (key value : string) (store : Storage) : Storage :=
  fun key' => if String.eqb key' key then Some value else store key'.

(** The modal's form, [Partial<ProblemModel>] as the form fills it: [type]
    is set from the first state on and the select offers the four types
    only; of [labels] the form state holds whole records; of [range] the
    form reads [max] alone. *)
Record NewProblem := {
  np_title : option string;
  np_description : option string;
  np_type : ProblemType;
  np_params : option Params;
  np_labels : option Labels;
  np_range : option Range
}.

Definition initial_newProblem : NewProblem := {|
  np_title := None;
  np_description := None;
  np_type := linear_simple;
  np_params := None;
  np_labels := Some {| x := "X"; y := "Y"; series1 := "Función"; series2 := None |};
  np_range := Some {| min := 0; max := 50; step := 1; defaultVal := 10 |}
|}.

(** The component's state hooks, but for the slider's [inputValue], which
    no handler below reads or writes. *)
Record State := {
  problems : list ProblemModel;
  activeId : string;
  showModal : bool;
  newProblem : NewProblem
}.

Section Host.

(** [JSON.parse] followed by the spread into an array: [None] when either
    throws. *)
Variable JSON_parse : string -> option (list ProblemModel).
Variable JSON_stringify : list ProblemModel -> string.

(** The initializer of the [problems] state. *)
Definition load_problems (store : Storage) : list ProblemModel :=
  match store LOCAL_STORAGE_KEY with
  | Some saved =>
      match saved with
      | EmptyString => DEFAULT_PROBLEMS
      | _ =>
          match JSON_parse saved with
          | Some customProblems => DEFAULT_PROBLEMS ++ customProblems
          | None => DEFAULT_PROBLEMS
          end
      end
  | None => DEFAULT_PROBLEMS
  end.

Definition init (store : Storage) : State := {|
  problems := load_problems store;
  activeId := "car_rental";
  showModal := false;
  newProblem := initial_newProblem
|}.

(** The effect that runs whenever [problems] has changed. *)
Definition persist (st : State) (store : Storage) : Storage :=
  let customProblems := filter isCustom (problems st) in
  setItem LOCAL_STORAGE_KEY (JSON_stringify customProblems) store.

End Host.

(** [problems.find(p => p.id === activeId) || problems[0]]; [None] is
    [undefined]. *)
Definition activeProblem (st : State) : option ProblemModel :=
  match find (fun p => String.eqb (id p) (activeId st)) (problems st) with
  | Some p => Some p
  | None => hd_error (problems st)
  end.

Section Sampler.

Variable Math_pow : number -> number -> number.

Definition cleanX2 (x0 : number) : number := Math_round (x0 * 100) / 100.

Definition linear1 (ps : Params) (cleanX : number) : number :=
  or_number (intercept ps) 0 + or_number (slope ps) 0 * cleanX.

Definition linear2 (ps : Params) (cleanX : number) : number :=
  or_number (intercept2 ps) 0 + or_number (slope2 ps) 0 * cleanX.

Definition exponential1 (ps : Params) (cleanX : number) : number :=
  or_number (initial ps) 1 * Math_pow (or_number (base ps) 1) cleanX.

(** [val1] and [val2] of the loop body of [data]. *)
Definition eval_vals (pb : ProblemModel) (cleanX : number)
  : number * option number :=
  match type pb with
  | linear_comparison =>
      (linear1 (params pb) cleanX, Some (linear2 (params pb) cleanX))
  | linear_simple => (linear1 (params pb) cleanX, None)
  | exponential_growth | exponential_decay =>
      (exponential1 (params pb) cleanX, None)
  end.

Definition data_body (pb : ProblemModel) (x0 : number)
    (points : list Types.DataPoint) : list Types.DataPoint :=
  let cleanX := cleanX2 x0 in
  let '(val1, val2) := eval_vals pb cleanX in
  points ++ [ {| Types.x := cleanX; Types.y := val1; Types.y2 := val2 |} ].

(** The point at a rounded abscissa, and the point of one turn. *)
Definition at_x (pb : ProblemModel) (cleanX : number) : Types.DataPoint :=
  {| Types.x := cleanX;
     Types.y := fst (eval_vals pb cleanX);
     Types.y2 := snd (eval_vals pb cleanX) |}.

Definition point (pb : ProblemModel) (x0 : number) : Types.DataPoint :=
  at_x pb (cleanX2 x0).

(** [data], for the active problem. *)
Definition data (fuel : nat) (pb : ProblemModel) : option (list Types.DataPoint) :=
  for_x fuel (min (range pb)) (max (range pb)) (step (range pb))
        (data_body pb) [].

End Sampler.

Definition with_catalog (st : State) (l : list ProblemModel) (active : string)
  : State :=
  {| problems := l; activeId := active;
     showModal := showModal st; newProblem := newProblem st |}.

Definition setShowModal (v : bool) (st : State) : State :=
  {| problems := problems st; activeId := activeId st;
     showModal := v; newProblem := newProblem st |}.

Definition setNewProblem (np : NewProblem) (st : State) : State :=
  {| problems := problems st; activeId := activeId st;
     showModal := showModal st; newProblem := np |}.

Definition setActiveId (i : string) (st : State) : State :=
  with_catalog st (problems st) i.

(** [`custom_${Date.now()}`]. *)
Definition custom_id (now : N) : string :=
  "custom_" ++ NilZero.string_of_uint (N.to_uint now).

(** [newProblem.params?.f], and [newProblem.params?.f || d]. *)
Definition supplied (np : NewProblem) (f : Params -> option number)
  : option number :=
  match np_params np with
  | Some ps => f ps
  | None => None
  end.

Definition param_or (np : NewProblem) (f : Params -> option number)
    (d : number) : number :=
  or_number (supplied np f) d.

(** The entry [p] that [handleAddProblem] builds; [now] is [Date.now()]. *)
Definition new_entry (now : N) (np : NewProblem) : ProblemModel := {|
  id := custom_id now;
  title := or_string (np_title np) "Nuevo Problema";
  description := or_string (np_description np) "Descripción del problema";
  type := np_type np;
  isCustom := true;
  params := {|
    slope := Some (param_or np slope 1);
    intercept := Some (param_or np intercept 0);
    base := Some (param_or np base 1.1);
    initial := Some (param_or np initial 10);
    slope2 := Some (param_or np slope2 1);
    intercept2 := Some (param_or np intercept2 0) |};
  labels := {|
    x := or_string (option_map x (np_labels np)) "X";
    y := or_string (option_map y (np_labels np)) "Y";
    series1 := or_string (option_map series1 (np_labels np)) "Serie 1";
    series2 := Some (or_string
                       (match np_labels np with
                        | Some l => series2 l
                        | None => None
                        end) "Serie 2") |};
  range := {|
    min := 0;
    max := or_number (option_map max (np_range np)) 50;
    step := 1;
    defaultVal := 0 |}
|}.

Definition handleAddProblem (now : N) (st : State) : State :=
  let p := new_entry now (newProblem st) in
  setShowModal false (with_catalog st (problems st ++ [p]) (id p)).

(** [handleDelete]: [None] is the TypeError of [newDocs[0].id] on an empty
    [newDocs]. *)
Definition handleDelete (id0 : string) (st : State) : option State :=
  let newDocs := filter (fun p => negb (String.eqb (id p) id0)) (problems st) in
  if String.eqb (activeId st) id0 then
    match newDocs with
    | p0 :: _ => Some (with_catalog st newDocs (id p0))
    | [] => None
    end
  else Some (with_catalog st newDocs (activeId st)).

(** The list item of [p]: the delete button is rendered for custom entries
    only, [{p.isCustom && (<button onClick=... handleDelete(p.id, e) />)}]. *)
Definition delete_button (p : ProblemModel) : option (State -> option State) :=
  if isCustom p then Some (handleDelete (id p)) else None.

(** What the user can do in the view. *)
Inductive Event :=
| ClickItem (p : ProblemModel)
| ClickDelete (p : ProblemModel)
| OpenModal
| CloseModal
| EditForm (np : NewProblem)
| SaveProblem (now : N).

(** One event of the view.  A list item exists for every entry of
    [problems]; a click on a delete button whose handler throws has no
    successor state. *)
Inductive view_step (st : State) : Event -> State -> Prop :=
| step_item p :
    In p (problems st) ->
    view_step st (ClickItem p) (setActiveId (id p) st)
| step_delete p onClick st' :
    In p (problems st) ->
    delete_button p = Some onClick ->
    onClick st = Some st' ->
    view_step st (ClickDelete p) st'
| step_open :
    view_step st OpenModal (setShowModal true st)
| step_close :
    showModal st = true ->
    view_step st CloseModal (setShowModal false st)
| step_edit np :
    showModal st = true ->
    view_step st (EditForm np) (setNewProblem np st)
| step_save now :
    showModal st = true ->
    view_step st (SaveProblem now) (handleAddProblem now st).

Definition builtin_ids : list string := map id DEFAULT_PROBLEMS.

(** Persisted entries that do not reuse the id of a built-in problem, as
    are all the entries the view itself creates ([custom_...]). *)
Definition foreign_ids (l : list ProblemModel) : Prop :=
  Forall (fun p => ~ In (id p) builtin_ids) l.

(** The invariant of a session: the built-in problems head the catalogue
    and no later entry reuses one of their ids. *)
Definition keeps_builtins (st : State) : Prop :=
  exists customs,
    problems st = (DEFAULT_PROBLEMS ++ customs)%list /\ foreign_ids customs.

(** The states of a session: the catalogue loaded from a store whose
    persisted entries have foreign ids, then any events. *)
Inductive reachable (JSON_parse : string -> option (list ProblemModel))
  : State -> Prop :=
| reach_init store :
    (forall saved l,
        store LOCAL_STORAGE_KEY = Some saved ->
        JSON_parse saved = Some l -> foreign_ids l) ->
    reachable JSON_parse (init JSON_parse store)
| reach_step st ev st' :
    reachable JSON_parse st -> view_step st ev st' ->
    reachable JSON_parse st'.

(** The persistence effect depends on [problems]: it runs after the first
    render and after the events whose handler calls [setProblems]. *)
Definition sets_problems (ev : Event) : bool :=
  match ev with
  | ClickDelete _ | SaveProblem _ => true
  | _ => false
  end.

Section Effects.

Variable JSON_parse : string -> option (list ProblemModel).
Variable JSON_stringify : list ProblemModel -> string.

Definition after_mount (store : Storage) : Storage :=
  persist JSON_stringify (init JSON_parse store) store.

Definition after_event (ev : Event) (st' : State) (store : Storage) : Storage :=
  if sets_problems ev then persist JSON_stringify st' store else store.

End Effects.

End ProblemsView.

(* ------------------------------------------------------------------ *)
(** ** Concrete inputs used by the worked examples *)

Module Examples.

Import JS.
Local Open Scope float_scope.
Local Open Scope string_scope.

(** The simulator on its exponential tab with the given parameters. *)
Definition exponential_tab (base k range : number) : SimulatorView.State := {|
  SimulatorView.activeTab := Types.EXPONENTIAL;
  SimulatorView.linear := SimulatorView.linear SimulatorView.initial;
  SimulatorView.quadratic := SimulatorView.quadratic SimulatorView.initial;
  SimulatorView.exponential := {| Types.base := base; Types.k := k |};
  SimulatorView.range := range;
  SimulatorView.savedSimulations := []
|}.

Definition negative_base_tab : SimulatorView.State := exponential_tab (-2) 1 10.

(** The decay 100 * 0.95^x of the built-in anaesthesia problem, on the
    simulator. *)
Definition decay_tab : SimulatorView.State := exponential_tab 0.95 100 10.

(** The modal's form after the user has typed the given parameters and
    upper bound, and nothing else. *)
Definition form (t : ProblemsView.ProblemType) (ps : ProblemsView.Params)
    (max : number) : ProblemsView.NewProblem := {|
  ProblemsView.np_title := None;
  ProblemsView.np_description := None;
  ProblemsView.np_type := t;
  ProblemsView.np_params := Some ps;
  ProblemsView.np_labels := ProblemsView.np_labels ProblemsView.initial_newProblem;
  ProblemsView.np_range :=
    Some {| ProblemsView.min := 0; ProblemsView.max := max;
            ProblemsView.step := 1; ProblemsView.defaultVal := 10 |}
|}.

(** A line of slope 100 on [0, 3]. *)
Definition form_steep : ProblemsView.NewProblem :=
  form ProblemsView.linear_simple
       {| ProblemsView.base := None; ProblemsView.initial := None;
          ProblemsView.slope := Some 100; ProblemsView.intercept := None;
          ProblemsView.slope2 := None; ProblemsView.intercept2 := None |} 3.

(** An exponential of base -2 on [0, 3]. *)
Definition form_negative_base : ProblemsView.NewProblem :=
  form ProblemsView.exponential_growth
       {| ProblemsView.base := Some (-2); ProblemsView.initial := None;
          ProblemsView.slope := None; ProblemsView.intercept := None;
          ProblemsView.slope2 := None; ProblemsView.intercept2 := None |} 3.

(** A persisted custom entry whose step, 0.004, is below the two decimals
    kept by the scenario sampler. *)
Definition entry_fine_step : ProblemsView.ProblemModel := {|
  ProblemsView.id := "custom_1700000000000";
  ProblemsView.title := "Paso fino";
  ProblemsView.type := ProblemsView.linear_simple;
  ProblemsView.description := "Descripción del problema";
  ProblemsView.isCustom := true;
  ProblemsView.params :=
    {| ProblemsView.base := Some 1.1; ProblemsView.initial := Some 10;
       ProblemsView.slope := Some 1; ProblemsView.intercept := Some 0;
       ProblemsView.slope2 := Some 1; ProblemsView.intercept2 := Some 0 |};
  ProblemsView.labels :=
    {| ProblemsView.x := "X"; ProblemsView.y := "Y";
       ProblemsView.series1 := "Serie 1"; ProblemsView.series2 := Some "Serie 2" |};
  ProblemsView.range :=
    {| ProblemsView.min := 0; ProblemsView.max := 0.01;
       ProblemsView.step := 0.004; ProblemsView.defaultVal := 0 |}
|}.

(** A persisted custom entry with a negative base and a step of one half. *)
Definition entry_half_step : ProblemsView.ProblemModel := {|
  ProblemsView.id := "custom_1700000000001";
  ProblemsView.title := "Medio paso";
  ProblemsView.type := ProblemsView.exponential_growth;
  ProblemsView.description := "Descripción del problema";
  ProblemsView.isCustom := true;
  ProblemsView.params :=
    {| ProblemsView.base := Some (-2); ProblemsView.initial := Some 10;
       ProblemsView.slope := Some 1; ProblemsView.intercept := Some 0;
       ProblemsView.slope2 := Some 1; ProblemsView.intercept2 := Some 0 |};
  ProblemsView.labels :=
    {| ProblemsView.x := "X"; ProblemsView.y := "Y";
       ProblemsView.series1 := "Serie 1"; ProblemsView.series2 := Some "Serie 2" |};
  ProblemsView.range :=
    {| ProblemsView.min := 0; ProblemsView.max := 1;
       ProblemsView.step := 0.5; ProblemsView.defaultVal := 0 |}
|}.

(** The integers 0, 1, ..., n - 1 as doubles. *)
Definition whole_grid (n : nat) : list number :=
  map (fun i => of_Z (Z.of_nat i)) (seq 0 n).


(** The abscissa and ordinate of a point. *)
Definition xy (p : Types.DataPoint) : number * number := (Types.x p, Types.y p).

(** A store that holds nothing, and a [JSON.parse] that always throws. *)
Definition empty_store : ProblemsView.Storage := fun _ => None.

Definition parse_throws : string -> option (list ProblemsView.ProblemModel) :=
  fun _ => None.

Definition session_start : ProblemsView.State :=
  ProblemsView.init parse_throws empty_store.

(** The dialog is opened and saved untouched at clock 1700000000000. *)
Definition after_create : ProblemsView.State :=
  ProblemsView.handleAddProblem 1700000000000
    (ProblemsView.setShowModal true session_start).

(** Two problems saved at one and the same clock reading: a line, then an
    exponential. *)
Definition same_clock_twice : ProblemsView.State :=
  ProblemsView.handleAddProblem 1700000000000
    (ProblemsView.setNewProblem form_negative_base
       (ProblemsView.setShowModal true
          (ProblemsView.handleAddProblem 1700000000000
             (ProblemsView.setNewProblem form_steep
                (ProblemsView.setShowModal true session_start))))).

(** A serializer that lists the ids, enough to tell stored values apart. *)
Definition stringify_ids (l : list ProblemsView.ProblemModel) : string :=
  String.concat "," (map ProblemsView.id l).

End Examples.

(* ------------------------------------------------------------------ *)
(** ** [SimulatorView]: linear analysis, saved simulations, report table *)

Module SimulatorRest.

Import JS.
Local Open Scope float_scope.

(** What [getLinearAnalysis] displays; [raiz] is the number before
    [toFixed(2)], [None] for the text N/A. *)
Record LinearAnalysis := {
  pendiente : number;
  tendencia : string;
  ordenada : number;
  raiz : option number
}.

Definition getLinearAnalysis (st : SimulatorView.State) : LinearAnalysis :=
  let l := SimulatorView.linear st in
  {| pendiente := Types.m l;
     tendencia :=
       if 0 <? Types.m l then "Creciente"%string
       else if Types.m l <? 0 then "Decreciente"%string
       else "Constante"%string;
     ordenada := Types.n l;
     raiz := if negb (Types.m l =? 0) then Some (- Types.n l / Types.m l)
             else None |}.

Definition setActiveTab (t : Types.FunctionType) (st : SimulatorView.State)
  : SimulatorView.State :=
  {| SimulatorView.activeTab := t;
     SimulatorView.linear := SimulatorView.linear st;
     SimulatorView.quadratic := SimulatorView.quadratic st;
     SimulatorView.exponential := SimulatorView.exponential st;
     SimulatorView.range := SimulatorView.range st;
     SimulatorView.savedSimulations := SimulatorView.savedSimulations st |}.

Definition setLinear (p : Types.LinearParams) (st : SimulatorView.State)
  : SimulatorView.State :=
  {| SimulatorView.activeTab := SimulatorView.activeTab st;
     SimulatorView.linear := p;
     SimulatorView.quadratic := SimulatorView.quadratic st;
     SimulatorView.exponential := SimulatorView.exponential st;
     SimulatorView.range := SimulatorView.range st;
     SimulatorView.savedSimulations := SimulatorView.savedSimulations st |}.

Definition setQuadratic (p : Types.QuadraticParams) (st : SimulatorView.State)
  : SimulatorView.State :=
  {| SimulatorView.activeTab := SimulatorView.activeTab st;
     SimulatorView.linear := SimulatorView.linear st;
     SimulatorView.quadratic := p;
     SimulatorView.exponential := SimulatorView.exponential st;
     SimulatorView.range := SimulatorView.range st;
     SimulatorView.savedSimulations := SimulatorView.savedSimulations st |}.

Definition setExponential (p : Types.ExponentialParams)
    (st : SimulatorView.State) : SimulatorView.State :=
  {| SimulatorView.activeTab := SimulatorView.activeTab st;
     SimulatorView.linear := SimulatorView.linear st;
     SimulatorView.quadratic := SimulatorView.quadratic st;
     SimulatorView.exponential := p;
     SimulatorView.range := SimulatorView.range st;
     SimulatorView.savedSimulations := SimulatorView.savedSimulations st |}.

(** [handleLoad].  The source casts [sim.params] to the record that
    [sim.type] names; [None] stands for a snapshot whose params are of
    another shape, which would put an object without the fields read later
    into the state. *)
Definition handleLoad (sim : SimulatorView.SavedSimulation)
    (st : SimulatorView.State) : option SimulatorView.State :=
  let st1 := setActiveTab (SimulatorView.type sim) st in
  match SimulatorView.type sim, SimulatorView.params sim with
  | Types.LINEAR, SimulatorView.PLinear p => Some (setLinear p st1)
  | Types.QUADRATIC, SimulatorView.PQuadratic p => Some (setQuadratic p st1)
  | Types.EXPONENTIAL, SimulatorView.PExponential p => Some (setExponential p st1)
  | Types.RATIONAL, _ => Some st1
  | _, _ => None
  end.

Definition STORAGE_KEY : string := "math_sim_configs"%string.

Section Host.

(** [JSON.parse]: [None] when it throws; a parsed value is an array of
    snapshots, as the source types it. *)
Variable JSON_parse : string -> option (list SimulatorView.SavedSimulation).
Variable JSON_stringify : list SimulatorView.SavedSimulation -> string.

(** What the mount effect puts into [savedSimulations]: nothing is set
    when the key is absent or empty, or when the value does not parse, and
    the list stays the initial []. *)
Definition load_saved (store : ProblemsView.Storage)
  : list SimulatorView.SavedSimulation :=
  match store STORAGE_KEY with
  | Some saved =>
      match saved with
      | EmptyString => []
      | _ =>
          match JSON_parse saved with
          | Some l => l
          | None => []
          end
      end
  | None => []
  end.

(** The effect that runs whenever [savedSimulations] has changed. *)
Definition persist_saved (st : SimulatorView.State)
    (store : ProblemsView.Storage) : ProblemsView.Storage :=
  ProblemsView.setItem STORAGE_KEY
    (JSON_stringify (SimulatorView.savedSimulations st)) store.

(** The component once its mount effects have settled: the load effect
    sets the list, the save effect writes the initial [] and then, after
    the render that follows a load, the loaded list. *)
Definition mount (store : ProblemsView.Storage)
  : SimulatorView.State * ProblemsView.Storage :=
  let st := SimulatorView.with_saved SimulatorView.initial (load_saved store) in
  (st, persist_saved st (persist_saved SimulatorView.initial store)).

End Host.

(** [data.filter((_, i) => i % 2 === 0)]. *)
Definition even_indexed {A : Type} (l : list A) : list A :=
  map snd (filter (fun ip => Nat.even (fst ip))
                  (combine (seq 0 (List.length l)) l)).

(** The points behind the rows of the report's table, before
    [toFixed]. *)
Definition tableData (Math_pow : number -> number -> number) (fuel : nat)
    (st : SimulatorView.State) : option (list Types.DataPoint) :=
  option_map even_indexed (SimulatorView.data Math_pow fuel st).

End SimulatorRest.

(* ------------------------------------------------------------------ *)
(** ** [ProblemsView.tsx]: the value at the slider, sessions *)

Module ProblemsRest.

Import JS.
Import ProblemsView.
Local Open Scope float_scope.

(** [currentCalc], for the active problem and the slider's value. *)
Definition currentCalc (Math_pow : number -> number -> number)
    (pb : ProblemModel) (inputValue : number) : number * number :=
  match type pb with
  | linear_comparison =>
      (linear1 (params pb) inputValue, linear2 (params pb) inputValue)
  | linear_simple => (linear1 (params pb) inputValue, 0)
  | exponential_growth | exponential_decay =>
      (exponential1 Math_pow (params pb) inputValue, 0)
  end.

(** [Math.ceil]: the least integral number not below [x]; [NaN], the
    infinities, the zeros and integral values are returned as they are, and
    a result of zero keeps the sign of [x]. *)
Definition Math_ceil (v : number) : number :=
  match Prim2SF v with
  | S754_finite s m e =>
      if (0 <=? e)%Z then v
      else
        let d := (2 ^ (- e))%Z in
        let n := if s then Z.neg m else Z.pos m in
        let r := (- ((- n) / d))%Z in
        if (r =? 0)%Z then (if s then (-0) else 0) else of_Z r
  | _ => v
  end.

(** A row of the report's table before [toFixed]: the abscissa and the one
    or two values. *)
Record Row := { row_x : number; row_v1 : number; row_v2 : option number }.

(** One turn of the table loop of [generatePDF]. *)
Definition table_body (Math_pow : number -> number -> number)
    (prob : ProblemModel) (x0 : number) (tableData : list Row) : list Row :=
  let cleanX := x0 in
  match type prob with
  | linear_comparison =>
      tableData ++ [ {| row_x := cleanX;
                        row_v1 := linear1 (params prob) cleanX;
                        row_v2 := Some (linear2 (params prob) cleanX) |} ]
  | linear_simple =>
      tableData ++ [ {| row_x := cleanX;
                        row_v1 := linear1 (params prob) cleanX;
                        row_v2 := None |} ]
  | exponential_growth | exponential_decay =>
      tableData ++ [ {| row_x := cleanX;
                        row_v1 := exponential1 Math_pow (params prob) cleanX;
                        row_v2 := None |} ]
  end.

(** The table of one problem in [generatePDF]. *)
Definition tableData (Math_pow : number -> number -> number) (fuel : nat)
    (prob : ProblemModel) : option (list Row) :=
  let step := Math_ceil ((max (range prob) - min (range prob)) / 5) in
  for_x fuel (min (range prob)) (max (range prob)) step
        (table_body Math_pow prob) [].

(** The header row of the table. *)
Definition headers (prob : ProblemModel) : list string :=
  match type prob with
  | linear_comparison =>
      [x (labels prob); series1 (labels prob);
       or_string (series2 (labels prob)) "Serie 2"]
  | _ => [x (labels prob); series1 (labels prob)]
  end.

(** The states that follow a given state by events of the view. *)
Inductive session (st0 : State) : State -> Prop :=
| session_here : session st0 st0
| session_step st ev st' :
    session st0 st -> view_step st ev st' -> session st0 st'.

(** Catalogues the view itself builds and persists: the built-in problems
    first, then entries flagged custom whose ids are not built-in ids. *)
Definition program_written (st : State) : Prop :=
  exists customs,
    problems st = (DEFAULT_PROBLEMS ++ customs)%list
    /\ foreign_ids customs
    /\ Forall (fun p => isCustom p = true) customs.

(** Every entry is sampled from 0 in steps of 1. *)
Definition unit_ranges (st : State) : Prop :=
  Forall (fun p => min (range p) = 0 /\ step (range p) = 1) (problems st).

End ProblemsRest.

(* ------------------------------------------------------------------ *)
(** ** Further concrete inputs *)

Module Fixtures.

Local Open Scope string_scope.

(** The simulator after its opening state was saved as "Caso 1". *)
Definition saved_once : SimulatorView.State :=
  SimulatorView.handleSave (Some "Caso 1") 1700000000000 "1/1/2024"
    SimulatorView.initial.

(** A serializer that lists the names between brackets, and the parser
    that reads back the two texts it yields on [] and on the list of
    [saved_once]. *)
Definition stringify_names (l : list SimulatorView.SavedSimulation) : string :=
  "[" ++ String.concat "," (map SimulatorView.name l) ++ "]".

Definition parse_names (s : string)
  : option (list SimulatorView.SavedSimulation) :=
  if String.eqb s "[Caso 1]" then Some (SimulatorView.savedSimulations saved_once)
  else if String.eqb s "[]" then Some []
  else None.

(** The parser that reads back what [Examples.stringify_ids] yields on the
    custom entry of [Examples.after_create]. *)
Definition parse_ids (s : string) : option (list ProblemsView.ProblemModel) :=
  if String.eqb s "custom_1700000000000"
  then Some [ProblemsView.new_entry 1700000000000
               ProblemsView.initial_newProblem]
  else None.

(** A stored snapshot of type rational. *)
Definition rational_snapshot : SimulatorView.SavedSimulation := {|
  SimulatorView.id := 1700000000000;
  SimulatorView.name := "Racional";
  SimulatorView.type := Types.RATIONAL;
  SimulatorView.params :=
    SimulatorView.PExponential
      (SimulatorView.exponential SimulatorView.initial);
  SimulatorView.timestamp := "1/1/2024"
|}.







(** The dialog with the line of slope 100 typed in, ready to be saved. *)
Definition steep_typed : ProblemsView.State :=
  ProblemsView.setNewProblem Examples.form_steep
    (ProblemsView.setShowModal true Examples.session_start).

(** A line for which the user typed the slope 0. *)
Definition form_flat : ProblemsView.NewProblem :=
  Examples.form ProblemsView.linear_simple
    {| ProblemsView.base := None; ProblemsView.initial := None;
       ProblemsView.slope := Some 0%float; ProblemsView.intercept := None;
       ProblemsView.slope2 := None; ProblemsView.intercept2 := None |} 3%float.


(** A catalogue reduced to the first built-in problem, which is active. *)
Definition only_car_rental : ProblemsView.State :=
  ProblemsView.with_catalog Examples.session_start
    (firstn 1 ProblemsView.DEFAULT_PROBLEMS) "car_rental".

End Fixtures.

(* ------------------------------------------------------------------ *)
(** * Properties *)

(** ** Order facts on doubles, from the specification of the primitives *)

Module FloatOrder.

Local Open Scope float_scope.

Lemma compare_cont_Eq_antisym (p q : positive) :
  Pos.compare_cont Eq q p = CompOpp (Pos.compare_cont Eq p q).
Proof. rewrite Pos.compare_cont_antisym. reflexivity. Qed.

Lemma SFcompare_antisym (u v : spec_float) :
  SFcompare v u = option_map CompOpp (SFcompare u v).
Proof.
  destruct u as [su| su| |su mu eu], v as [sv| sv| |sv mv ev]; simpl;
    try reflexivity;
    try (destruct su; reflexivity);
    try (destruct sv; reflexivity);
    try (destruct su, sv; reflexivity).
  destruct su, sv; try reflexivity;
    rewrite (Z.compare_antisym eu ev);
    destruct (eu ?= ev)%Z; simpl; try reflexivity;
    rewrite (compare_cont_Eq_antisym mu mv);
    destruct (Pos.compare_cont Eq mu mv); reflexivity.
Qed.

Lemma SFcompare_refl (u : spec_float) :
  u <> S754_nan -> SFcompare u u = Some Eq.
Proof.
  destruct u as [s| s| |s mu eu]; simpl; intros H; try congruence.
  - destruct s; reflexivity.
  - destruct s; rewrite Z.compare_refl;
      change (Pos.compare_cont Eq mu mu) with (mu ?= mu)%positive;
      rewrite Pos.compare_refl; reflexivity.
Qed.

Lemma ltb_asym (u v : float) : (u <? v) = true -> (v <? u) = false.
Proof.
  rewrite !ltb_spec. unfold SFltb.
  rewrite (SFcompare_antisym (Prim2SF u) (Prim2SF v)).
  destruct (SFcompare (Prim2SF u) (Prim2SF v)) as [[ | | ]|];
    simpl; congruence.
Qed.

Lemma ltb_not_eqb (u v : float) : (u <? v) = true -> (u =? v) = false.
Proof.
  rewrite ltb_spec, eqb_spec. unfold SFltb, SFeqb.
  destruct (SFcompare (Prim2SF u) (Prim2SF v)) as [[ | | ]|];
    simpl; congruence.
Qed.

Lemma gtb_not_eqb (u v : float) : (v <? u) = true -> (u =? v) = false.
Proof.
  rewrite ltb_spec, eqb_spec. unfold SFltb, SFeqb.
  rewrite (SFcompare_antisym (Prim2SF v) (Prim2SF u)).
  destruct (SFcompare (Prim2SF v) (Prim2SF u)) as [[ | | ]|];
    simpl; congruence.
Qed.

Lemma eqb_not_ltb (u v : float) : (u =? v) = true -> (u <? v) = false.
Proof.
  intros H. destruct (u <? v) eqn:E; [ | reflexivity ].
  apply ltb_not_eqb in E. congruence.
Qed.

Lemma leb_not_gtb (u v : float) : (u <=? v) = true -> (v <? u) = false.
Proof.
  rewrite ltb_spec, leb_spec. unfold SFltb, SFleb.
  rewrite (SFcompare_antisym (Prim2SF u) (Prim2SF v)).
  destruct (SFcompare (Prim2SF u) (Prim2SF v)) as [[ | | ]|];
    simpl; congruence.
Qed.

(** A comparison that succeeds has no [NaN] operand. *)
Lemma ltb_abs_not_nan (u bound : float) :
  (abs u <? bound) = true -> JS.isNaN u = false.
Proof.
  unfold JS.isNaN. rewrite ltb_spec, eqb_spec, abs_spec.
  unfold SFltb, SFeqb. intros H.
  rewrite SFcompare_refl; [ reflexivity | ].
  intros E. rewrite E in H. simpl in H. discriminate.
Qed.

End FloatOrder.

(** ** The loops of the two samplers *)

Module Loop.

Import JS.
Local Open Scope float_scope.

Lemma for_x_eq {A : Type} (body : number -> A -> A) (stop step : number) :
  forall fuel x acc,
    for_x fuel x stop step body acc =
    if finishes fuel x stop step
    then Some (fold_left (fun a v => body v a) (raw_xs fuel x stop step) acc)
    else None.
Proof.
  induction fuel as [|fuel IH]; intros x acc; simpl.
  - reflexivity.
  - destruct (x <=? stop); simpl; [ apply IH | reflexivity ].
Qed.

Lemma raw_xs_grid (stop step : number) :
  forall fuel x,
    raw_xs fuel x stop step =
    firstn (List.length (raw_xs fuel x stop step)) (grid fuel x step).
Proof.
  induction fuel as [|fuel IH]; intros x; simpl.
  - reflexivity.
  - destruct (x <=? stop); simpl; [ f_equal; apply IH | reflexivity ].
Qed.


Lemma increasing_app (l1 l2 : list number) :
  increasing (l1 ++ l2) = true -> increasing l1 = true.
Proof.
  induction l1 as [|v l1 IH]; simpl; intros H; [ reflexivity | ].
  apply andb_true_iff in H. destruct H as [H1 H2].
  rewrite forallb_app in H1. apply andb_true_iff in H1.
  destruct H1 as [H1 _].
  apply andb_true_iff. split; [ exact H1 | exact (IH H2) ].
Qed.

Lemma increasing_firstn (k : nat) (l : list number) :
  increasing l = true -> increasing (firstn k l) = true.
Proof.
  intros H. rewrite <- (firstn_skipn k l) in H.
  exact (increasing_app _ _ H).
Qed.



(** The free-range sampler: the points of the turns that pass the test. *)
Lemma simulator_fold (pow : number -> number -> number)
    (st : SimulatorView.State) :
  forall raws acc,
    fold_left (fun a v => SimulatorView.data_body pow st v a) raws acc =
    acc ++ filter SimulatorView.plotted (map (SimulatorView.point pow st) raws).
Proof.
  induction raws as [|v raws IH]; intros acc; simpl.
  - symmetry. apply app_nil_r.
  - rewrite IH. unfold SimulatorView.data_body, SimulatorView.plotted at 2.
    simpl. fold (SimulatorView.point pow st v).
    destruct (Math_abs (SimulatorView.eval_y pow st (SimulatorView.cleanX1 v)) <? 200).
    + rewrite <- app_assoc. reflexivity.
    + reflexivity.
Qed.

Lemma simulator_data_eq (pow : number -> number -> number) (fuel : nat)
    (st : SimulatorView.State) :
  let raws := raw_xs fuel (- Math_abs (SimulatorView.range st))
                     (Math_abs (SimulatorView.range st)) SimulatorView.step in
  SimulatorView.data pow fuel st =
  if finishes fuel (- Math_abs (SimulatorView.range st))
              (Math_abs (SimulatorView.range st)) SimulatorView.step
  then Some (filter SimulatorView.plotted (map (SimulatorView.point pow st) raws))
  else None.
Proof.
  unfold SimulatorView.data. rewrite for_x_eq.
  destruct (finishes _ _ _ _); [ | reflexivity ].
  rewrite simulator_fold. reflexivity.
Qed.

(** The scenario sampler: one point for every turn. *)
Lemma scenario_fold (pow : number -> number -> number)
    (pb : ProblemsView.ProblemModel) :
  forall raws acc,
    fold_left (fun a v => ProblemsView.data_body pow pb v a) raws acc =
    acc ++ map (ProblemsView.point pow pb) raws.
Proof.
  induction raws as [|v raws IH]; intros acc; simpl.
  - symmetry. apply app_nil_r.
  - rewrite IH.
    unfold ProblemsView.data_body, ProblemsView.point, ProblemsView.at_x.
    destruct (ProblemsView.eval_vals pow pb (ProblemsView.cleanX2 v)) as [v1 v2].
    simpl. rewrite <- app_assoc. reflexivity.
Qed.

Lemma scenario_data_eq (pow : number -> number -> number) (fuel : nat)
    (pb : ProblemsView.ProblemModel) :
  let r := ProblemsView.range pb in
  let raws := raw_xs fuel (ProblemsView.min r) (ProblemsView.max r)
                     (ProblemsView.step r) in
  ProblemsView.data pow fuel pb =
  if finishes fuel (ProblemsView.min r) (ProblemsView.max r) (ProblemsView.step r)
  then Some (map (ProblemsView.point pow pb) raws)
  else None.
Proof.
  unfold ProblemsView.data. rewrite for_x_eq.
  destruct (finishes _ _ _ _); [ | reflexivity ].
  rewrite scenario_fold. reflexivity.
Qed.

Lemma Some_eq {A : Type} (u v : A) : Some u = Some v -> u = v.
Proof. congruence. Qed.

Lemma simulator_points (pow : number -> number -> number)
    (st : SimulatorView.State) (raws : list number) :
  map (SimulatorView.point pow st) raws
  = map (SimulatorView.at_x pow st) (map SimulatorView.cleanX1 raws).
Proof. rewrite map_map. reflexivity. Qed.

Lemma simulator_abscissas (pow : number -> number -> number)
    (st : SimulatorView.State) (l : list number) :
  map Types.x (map (SimulatorView.at_x pow st) l) = l.
Proof. rewrite map_map. apply map_id. Qed.

Lemma scenario_points (pow : number -> number -> number)
    (pb : ProblemsView.ProblemModel) (raws : list number) :
  map (ProblemsView.point pow pb) raws
  = map (ProblemsView.at_x pow pb) (map ProblemsView.cleanX2 raws).
Proof. rewrite map_map. reflexivity. Qed.

Lemma scenario_abscissas (pow : number -> number -> number)
    (pb : ProblemsView.ProblemModel) (l : list number) :
  map Types.x (map (ProblemsView.at_x pow pb) l) = l.
Proof. rewrite map_map. apply map_id. Qed.

End Loop.

(** ** The samplers *)

Section Samplers.

Import JS.
Local Open Scope float_scope.

Variable Math_pow : number -> number -> number.

(** C9. In the free-range simulator the emitted points are exactly the
    points of the loop's turns whose ordinate passes [Math.abs(y) < 200],
    so every emitted point satisfies it; the scenario sampler emits the
    point of every turn, with no test on its ordinate: a line of slope 100
    is sampled up to y = 300. *)
Theorem simulator_filters_scenario_does_not (fuel : nat) :
  (forall st pts,
      SimulatorView.data Math_pow fuel st = Some pts ->
      pts = filter SimulatorView.plotted
              (map (SimulatorView.point Math_pow st)
                   (raw_xs fuel (- Math_abs (SimulatorView.range st))
                           (Math_abs (SimulatorView.range st))
                           SimulatorView.step))
      /\ Forall (fun p => (Math_abs (Types.y p) <? 200) = true) pts)
  /\ (forall pb pts,
      ProblemsView.data Math_pow fuel pb = Some pts ->
      pts = map (ProblemsView.point Math_pow pb)
              (raw_xs fuel (ProblemsView.min (ProblemsView.range pb))
                      (ProblemsView.max (ProblemsView.range pb))
                      (ProblemsView.step (ProblemsView.range pb))))
  /\ option_map (map Examples.xy)
        (ProblemsView.data Math_pow 10
           (ProblemsView.new_entry 1 Examples.form_steep))
     = Some [(0, 0); (1, 100); (2, 200); (3, 300)].
Proof.
  split; [ | split ].
  - intros st pts H. rewrite Loop.simulator_data_eq in H.
    destruct (finishes _ _ _ _); [ | discriminate ].
    injection H as <-. split; [ reflexivity | ].
    apply Forall_forall. intros p Hp. apply filter_In in Hp.
    exact (proj2 Hp).
  - intros pb pts H. rewrite Loop.scenario_data_eq in H.
    destruct (finishes _ _ _ _); [ | discriminate ].
    injection H as <-. reflexivity.
  - vm_compute. reflexivity.
Qed.

End Samplers.

(** The simulator's opening function, 2x + 1 on [-10, 10]: 41 points, all
    within the envelope. *)
Lemma simulator_filters_witness :
  exists pts,
    SimulatorView.data JS.pow_ref 300 SimulatorView.initial = Some pts
    /\ List.length pts = 41%nat
    /\ Forall (fun p => PrimFloat.ltb (JS.Math_abs (Types.y p)) 200%float = true) pts.
Proof.
  eexists. split; [ vm_compute; reflexivity | ].
  split; [ reflexivity | ].
  refine (proj2 (proj1 (simulator_filters_scenario_does_not JS.pow_ref 300)
                   SimulatorView.initial _ _)).
  vm_compute. reflexivity.
Defined.

(** ** Undefined ordinates *)

Section Undefined.

Import JS.
Local Open Scope float_scope.

Variable Math_pow : number -> number -> number.

Lemma filter_none {A : Type} (keep : A -> bool) (l : list A) :
  (forall u, In u l -> keep u = false) -> filter keep l = [].
Proof.
  induction l as [|u l IH]; simpl; intros H; [ reflexivity | ].
  rewrite (H u (or_introl eq_refl)). apply IH. intros w Hw. apply H. now right.
Qed.

(** C2 (amended). The free-range simulator never emits a point whose
    ordinate is [NaN], and for an exponential of base <= 0 it emits no
    point at all.  The scenario sampler has no undefined result: it emits
    the point of every turn of its loop, and for the exponential types the
    ordinate is [(initial || 1) * Math.pow(base || 1, x)] whatever the base. *)
Theorem simulator_omits_nan_scenario_keeps_all (fuel : nat) :
  (forall st pts,
      SimulatorView.data Math_pow fuel st = Some pts ->
      Forall (fun p => isNaN (Types.y p) = false) pts
      /\ (SimulatorView.activeTab st = Types.EXPONENTIAL ->
          (Types.base (SimulatorView.exponential st) <=? 0) = true ->
          pts = []))
  /\ (forall pb pts,
      ProblemsView.data Math_pow fuel pb = Some pts ->
      List.length pts =
        List.length (raw_xs fuel (ProblemsView.min (ProblemsView.range pb))
                            (ProblemsView.max (ProblemsView.range pb))
                            (ProblemsView.step (ProblemsView.range pb)))
      /\ (ProblemsView.type pb = ProblemsView.exponential_growth
           \/ ProblemsView.type pb = ProblemsView.exponential_decay ->
          Forall (fun p =>
                    Types.y p =
                    or_number (ProblemsView.initial (ProblemsView.params pb)) 1
                    * Math_pow (or_number (ProblemsView.base (ProblemsView.params pb)) 1)
                               (Types.x p)) pts)).
Proof.
  split.
  - intros st pts H. rewrite Loop.simulator_data_eq in H.
    destruct (finishes _ _ _ _); [ | discriminate ].
    injection H as <-. split.
    + apply Forall_forall. intros p Hp. apply filter_In in Hp.
      exact (FloatOrder.ltb_abs_not_nan _ _ (proj2 Hp)).
    + intros Htab Hbase. apply filter_none. intros p Hp.
      apply in_map_iff in Hp. destruct Hp as [v [<- _]].
      unfold SimulatorView.plotted, SimulatorView.point, SimulatorView.at_x,
        SimulatorView.eval_y.
      simpl. rewrite Htab, (FloatOrder.leb_not_gtb _ _ Hbase). reflexivity.
  - intros pb pts H. rewrite Loop.scenario_data_eq in H.
    destruct (finishes _ _ _ _); [ | discriminate ].
    injection H as <-. split; [ apply length_map | ].
    intros Ht. apply Forall_forall. intros p Hp.
    apply in_map_iff in Hp. destruct Hp as [v [<- _]].
    unfold ProblemsView.point, ProblemsView.at_x, ProblemsView.eval_vals.
    destruct Ht as [-> | ->]; reflexivity.
Qed.

End Undefined.

(** An exponential of base -2 in the simulator: the loop ends and nothing
    is emitted. *)
Lemma simulator_omits_nan_witness :
  exists pts,
    SimulatorView.data JS.pow_ref 300 Examples.negative_base_tab = Some pts
    /\ pts = [].
Proof.
  eexists. split; [ vm_compute; reflexivity | ].
  refine (proj2 (proj1 (simulator_omits_nan_scenario_keeps_all JS.pow_ref 300)
                   Examples.negative_base_tab _ _) _ _);
    vm_compute; reflexivity.
Defined.

(** C2, as stated, fails in the scenario sampler: a problem created from
    the form with base -2 is sampled at every x of [0, 3], and a persisted
    one with step 0.5 has [NaN] ordinates in its sequence. *)
Lemma scenario_samples_negative_base :
  option_map (map Examples.xy)
    (ProblemsView.data JS.pow_ref 10
       (ProblemsView.new_entry 1 Examples.form_negative_base))
  = Some [(0, 10); (1, -20); (2, 40); (3, -80)]%float
  /\ option_map (map Examples.xy)
       (ProblemsView.data JS.pow_ref 10 Examples.entry_half_step)
     = Some [(0, 10); (0.5, nan); (1, -20)]%float.
Proof. split; vm_compute; reflexivity. Qed.

(** ** Rounded abscissas and their order *)

Section Abscissas.

Import JS.
Local Open Scope float_scope.


(** The scenario loop from 0 in steps of 1: the rounded abscissas of 2000
    turns are the integers, in increasing order. *)
Lemma unit_grid :
  map ProblemsView.cleanX2 (grid 2000 0 1) = Examples.whole_grid 2000
  /\ increasing (Examples.whole_grid 2000) = true.
Proof. split; vm_compute; reflexivity. Qed.

Lemma firstn_seq (k : nat) :
  forall start len, firstn k (seq start len) = seq start (Nat.min k len).
Proof.
  induction k as [|k IH]; intros start [|len]; simpl; try reflexivity.
  f_equal. apply IH.
Qed.

Lemma raw_xs_length (stop step : number) :
  forall fuel x, (List.length (raw_xs fuel x stop step) <= fuel)%nat.
Proof.
  induction fuel as [|fuel IH]; intros x; simpl; [ lia | ].
  destruct (x <=? stop); simpl; [ specialize (IH (x + step)) | ]; lia.
Qed.

(** A loop from 0 in steps of 1 visits, within 2000 turns, rounded
    abscissas that are the first integers. *)
Lemma unit_steps (stop : number) :
  let raws := raw_xs 2000 0 stop 1 in
  map ProblemsView.cleanX2 raws = Examples.whole_grid (List.length raws)
  /\ increasing (Examples.whole_grid (List.length raws)) = true.
Proof.
  intros raws. destruct unit_grid as [Hg Hi].
  assert (Hk : (List.length raws <= 2000)%nat) by apply raw_xs_length.
  assert (Hw : Examples.whole_grid (List.length raws)
               = firstn (List.length raws) (Examples.whole_grid 2000)).
  { unfold Examples.whole_grid. rewrite firstn_map, firstn_seq.
    rewrite Nat.min_l by exact Hk. reflexivity. }
  split.
  - unfold raws at 1. rewrite (Loop.raw_xs_grid stop 1 2000 0).
    fold raws. rewrite <- firstn_map, Hg. symmetry. exact Hw.
  - rewrite Hw. apply Loop.increasing_firstn. exact Hi.
Qed.







Set Warnings "-abstract-large-number".



Variable Math_pow : number -> number -> number.


End Abscissas.



(** ** The analyses *)

Section Analyses.

Import JS.
Local Open Scope float_scope.

Variable Math_pow : number -> number -> number.

(** C6. The quadratic analysis reports the discriminant b^2 - 4ac, the
    vertex (-b/2a, f(-b/2a)), no real root when the discriminant is
    negative, the single root -b/2a when it is zero, and the two roots
    (-b + sqrt D)/2a, (-b - sqrt D)/2a, in this order, when it is positive.
    For a = 1, b = -6, c = 5 (with [Math.pow] exact on the squares of 3 and
    -6) the vertex is (3, -4), the discriminant 16 and the roots 5 and 1. *)
Theorem quadratic_analysis (st : SimulatorView.State) :
  let q := SimulatorView.quadratic st in
  let an := SimulatorView.getQuadraticAnalysis Math_pow st in
  let delta := Math_pow (Types.b q) 2 - 4 * Types.a q * Types.c q in
  let vx := - Types.b q / (2 * Types.a q) in
  SimulatorView.discriminante an = delta
  /\ SimulatorView.vertice an
     = (vx, Types.a q * Math_pow vx 2 + Types.b q * vx + Types.c q)
  /\ ((delta <? 0) = true ->
      SimulatorView.raices an = SimulatorView.NoReales)
  /\ ((delta =? 0) = true ->
      SimulatorView.raices an = SimulatorView.Una vx)
  /\ ((0 <? delta) = true ->
      SimulatorView.raices an
      = SimulatorView.Dos ((- Types.b q + Math_sqrt delta) / (2 * Types.a q))
                          ((- Types.b q - Math_sqrt delta) / (2 * Types.a q)))
  /\ (Math_pow 3 2 = 9 -> Math_pow (-6) 2 = 36 ->
      q = {| Types.a := 1; Types.b := -6; Types.c := 5 |} ->
      SimulatorView.vertice an = (3, -4)
      /\ SimulatorView.discriminante an = 16
      /\ SimulatorView.raices an = SimulatorView.Dos 5 1).
Proof.
  intros q an delta vx.
  repeat match goal with |- _ /\ _ => split end; try reflexivity.
  - intros H. unfold an, SimulatorView.getQuadraticAnalysis. simpl.
    fold q. fold delta. rewrite H. reflexivity.
  - intros H. unfold an, SimulatorView.getQuadraticAnalysis. simpl.
    fold q. fold delta. fold vx.
    rewrite (FloatOrder.eqb_not_ltb _ _ H), H. reflexivity.
  - intros H. unfold an, SimulatorView.getQuadraticAnalysis. simpl.
    fold q. fold delta.
    rewrite (FloatOrder.ltb_asym _ _ H), (FloatOrder.gtb_not_eqb _ _ H).
    reflexivity.
  - intros H3 H6 Hq.
    unfold an, SimulatorView.getQuadraticAnalysis. fold q. rewrite Hq.
    cbn [Types.a Types.b Types.c SimulatorView.vertice
         SimulatorView.discriminante SimulatorView.raices].
    replace (- -6 / (2 * 1)) with 3 by (vm_compute; reflexivity).
    rewrite H3, H6. vm_compute. repeat split; reflexivity.
Qed.

End Analyses.

(** The simulator's opening parabola, x^2 - 6x + 5. *)
Lemma quadratic_analysis_witness :
  let an := SimulatorView.getQuadraticAnalysis JS.pow_ref SimulatorView.initial in
  SimulatorView.vertice an = (3, -4)%float
  /\ SimulatorView.discriminante an = 16%float
  /\ SimulatorView.raices an = (SimulatorView.Dos 5 1)%float.
Proof.
  refine (proj2 (proj2 (proj2 (proj2 (proj2
           (quadratic_analysis JS.pow_ref SimulatorView.initial))))) _ _ _);
    vm_compute; reflexivity.
Defined.

(** C7. The exponential analysis labels the function growing when
    base > 1 and decreasing when 0 < base < 1; at base = 1 it still
    answers (decreasing); the intercept shown is k and the asymptote is
    the text y = 0. *)
Theorem exponential_analysis (st : SimulatorView.State) :
  let e := SimulatorView.exponential st in
  let an := SimulatorView.exponentialAnalysis st in
  (PrimFloat.ltb 1 (Types.base e) = true ->
   SimulatorView.tipo an = "Creciente"%string)
  /\ (PrimFloat.ltb 0 (Types.base e) = true ->
      PrimFloat.ltb (Types.base e) 1 = true ->
      SimulatorView.tipo an = "Decreciente"%string)
  /\ (PrimFloat.eqb (Types.base e) 1 = true ->
      SimulatorView.tipo an = "Decreciente"%string)
  /\ SimulatorView.corteEjeY an = Types.k e
  /\ SimulatorView.asintota an = "y = 0"%string.
Proof.
  intros e an. unfold an, SimulatorView.exponentialAnalysis. fold e. simpl.
  repeat split.
  - intros H. rewrite H. reflexivity.
  - intros _ H. rewrite (FloatOrder.ltb_asym _ _ H). reflexivity.
  - intros H. destruct (PrimFloat.ltb 1 (Types.base e)) eqn:E.
    + apply FloatOrder.gtb_not_eqb in E. congruence.
    + reflexivity.
Qed.

(** The decaying curve 100 * 0.95^x and the opening curve 1.5^x. *)
Lemma exponential_analysis_witness :
  SimulatorView.tipo (SimulatorView.exponentialAnalysis Examples.decay_tab)
  = "Decreciente"%string
  /\ SimulatorView.tipo (SimulatorView.exponentialAnalysis SimulatorView.initial)
     = "Creciente"%string.
Proof.
  split.
  - refine (proj1 (proj2 (exponential_analysis Examples.decay_tab)) _ _);
      vm_compute; reflexivity.
  - refine (proj1 (exponential_analysis SimulatorView.initial) _);
      vm_compute; reflexivity.
Defined.

(** ** The catalogue *)

Module Catalog.

Import ProblemsView.

Lemma default_not_custom (b : ProblemModel) :
  In b DEFAULT_PROBLEMS -> isCustom b = false.
Proof.
  simpl. intros [<- | [<- | [<- | []]]]; reflexivity.
Qed.

Lemma custom_id_foreign (now : N) : ~ In (custom_id now) builtin_ids.
Proof.
  unfold custom_id, builtin_ids. simpl.
  intros [H | [H | [H | []]]]; discriminate H.
Qed.

Lemma to_uint_nonnil (n : N) : N.to_uint n <> Decimal.Nil.
Proof.
  destruct n as [|q]; simpl; [ discriminate | apply DecimalPos.Unsigned.to_uint_nonnil ].
Qed.

(** Two clock readings give the same id only when they are equal. *)
Lemma custom_id_inj (t1 t2 : N) : custom_id t1 = custom_id t2 -> t1 = t2.
Proof.
  unfold custom_id. simpl. intros H. injection H as H.
  apply (f_equal NilZero.uint_of_string) in H.
  rewrite !NilZero.usu in H by apply to_uint_nonnil.
  injection H as H. apply (f_equal N.of_uint) in H.
  now rewrite !DecimalN.Unsigned.of_to in H.
Qed.

Lemma filter_foreign (id0 : string) :
  ~ In id0 builtin_ids ->
  filter (fun p => negb (String.eqb (id p) id0)) DEFAULT_PROBLEMS
  = DEFAULT_PROBLEMS.
Proof.
  intros H. apply forallb_filter_id. apply forallb_forall. intros b Hb.
  apply negb_true_iff. apply String.eqb_neq. intros E. apply H.
  rewrite <- E. unfold builtin_ids. now apply in_map.
Qed.

Lemma foreign_filter (keep : ProblemModel -> bool) (l : list ProblemModel) :
  foreign_ids l -> foreign_ids (filter keep l).
Proof.
  unfold foreign_ids. rewrite !Forall_forall. intros H p Hp.
  apply filter_In in Hp. apply H. exact (proj1 Hp).
Qed.

(** A custom entry of the catalogue has a foreign id. *)
Lemma custom_entry_foreign (st : State) (p : ProblemModel) :
  keeps_builtins st -> In p (problems st) -> isCustom p = true ->
  ~ In (id p) builtin_ids.
Proof.
  intros [customs [Hp Hf]] Hin Hc. rewrite Hp in Hin.
  apply in_app_or in Hin. destruct Hin as [Hin | Hin].
  - apply default_not_custom in Hin. congruence.
  - unfold foreign_ids in Hf. rewrite Forall_forall in Hf. now apply Hf.
Qed.

(** Deleting a foreign id from a catalogue headed by the built-ins. *)
Lemma delete_foreign (st : State) (id0 : string) :
  keeps_builtins st -> ~ In id0 builtin_ids ->
  exists st',
    handleDelete id0 st = Some st'
    /\ problems st' = filter (fun p => negb (String.eqb (id p) id0)) (problems st)
    /\ keeps_builtins st'
    /\ (String.eqb (activeId st) id0 = true -> activeId st' = "car_rental"%string)
    /\ (String.eqb (activeId st) id0 = false -> activeId st' = activeId st).
Proof.
  intros [customs [Hp Hf]] Hid. unfold handleDelete. rewrite Hp.
  rewrite filter_app, (filter_foreign id0 Hid).
  destruct (String.eqb (activeId st) id0).
  - eexists. split; [ reflexivity | ]. simpl.
    repeat split; try congruence.
    eexists. split; [ reflexivity | now apply foreign_filter ].
  - eexists. split; [ reflexivity | ]. simpl.
    repeat split; try congruence.
    eexists. split; [ reflexivity | now apply foreign_filter ].
Qed.

Lemma step_keeps_builtins (st st' : State) (ev : Event) :
  keeps_builtins st -> view_step st ev st' -> keeps_builtins st'.
Proof.
  intros Hk Hs. destruct Hs as [p Hin | p onClick st' Hin Hb Hc | | | | now Hm];
    try exact Hk.
  - unfold delete_button in Hb. destruct (isCustom p) eqn:Ec; [ | discriminate ].
    injection Hb as <-.
    destruct (delete_foreign st (id p) Hk
                (custom_entry_foreign st p Hk Hin Ec)) as [st2 [H1 [_ [H3 _]]]].
    rewrite H1 in Hc. injection Hc as <-. exact H3.
  - destruct Hk as [customs [Hp Hf]].
    exists (customs ++ [new_entry now (newProblem st)]).
    unfold handleAddProblem, setShowModal, with_catalog. cbn [problems]. split.
    + rewrite Hp. symmetry. apply app_assoc.
    + apply Forall_app. split; [ exact Hf | ].
      constructor; [ apply custom_id_foreign | constructor ].
Qed.

Lemma reachable_keeps_builtins
    (JSON_parse : string -> option (list ProblemModel)) (st : State) :
  reachable JSON_parse st -> keeps_builtins st.
Proof.
  induction 1 as [store Hstore | st ev st' _ IH Hs].
  - unfold keeps_builtins, init, load_problems. cbn [problems].
    destruct (store LOCAL_STORAGE_KEY) as [saved|] eqn:Es.
    + destruct saved as [|ch saved'].
      * exists []. split; [ symmetry; apply app_nil_r | constructor ].
      * destruct (JSON_parse (String ch saved')) as [l|] eqn:Ep.
        -- exists l. split; [ reflexivity | exact (Hstore _ _ eq_refl Ep) ].
        -- exists []. split; [ symmetry; apply app_nil_r | constructor ].
    + exists []. split; [ symmetry; apply app_nil_r | constructor ].
  - exact (step_keeps_builtins st st' ev IH Hs).
Qed.


Lemma find_absent (i : string) (l : list ProblemModel) :
  ~ In i (map id l) -> find (fun q => String.eqb (id q) i) l = None.
Proof.
  induction l as [|q l IH]; simpl; intros H; [ reflexivity | ].
  destruct (String.eqb_spec (id q) i) as [E | _].
  - exfalso. apply H. now left.
  - apply IH. intros Hin. apply H. now right.
Qed.



Lemma find_appended (f : ProblemModel -> bool) (p : ProblemModel)
    (l : list ProblemModel) :
  find f l = None -> f p = true -> find f (l ++ [p]) = Some p.
Proof.
  intros Hl Hp. induction l as [|q l IH]; simpl.
  - now rewrite Hp.
  - simpl in Hl. destruct (f q); [ discriminate | auto ].
Qed.

Lemma session_reachable_open
    (JSON_parse : string -> option (list ProblemModel)) :
  reachable JSON_parse
    (setShowModal true (init JSON_parse (fun _ => None))).
Proof.
  eapply reach_step; [ | apply step_open ].
  apply reach_init. intros saved l H. discriminate H.
Qed.

End Catalog.

Section Store.

Import ProblemsView.

Variable JSON_parse : string -> option (list ProblemModel).






(** C1 (amended). The handler [handleDelete] does not look at [isCustom]:
    it removes every entry that has the id.  The built-in problems are
    protected by the view, which renders no delete button for an entry
    with [isCustom = false]; in every state of a session each event, a
    delete included, leaves the built-in problems at the head of the
    catalogue. *)
Theorem builtins_protected_by_the_view (st : State) :
  reachable JSON_parse st ->
  (forall p, isCustom p = false -> delete_button p = None)
  /\ (forall ev st',
        view_step st ev st' ->
        exists customs', problems st' = DEFAULT_PROBLEMS ++ customs')
  /\ (forall p onClick st',
        In p (problems st) -> delete_button p = Some onClick ->
        onClick st = Some st' ->
        isCustom p = true
        /\ problems st'
           = filter (fun q => negb (String.eqb (id q) (id p))) (problems st)
        /\ forall b, In b DEFAULT_PROBLEMS -> In b (problems st'))
  /\ (forall id0 st0 st1,
        handleDelete id0 st0 = Some st1 ->
        problems st1
        = filter (fun q => negb (String.eqb (id q) id0)) (problems st0)).
Proof.
  intros Hr. pose proof (Catalog.reachable_keeps_builtins JSON_parse st Hr) as Hk.
  split; [ | split; [ | split ] ].
  - intros p Hc. unfold delete_button. rewrite Hc. reflexivity.
  - intros ev st' Hs.
    destruct (Catalog.step_keeps_builtins st st' ev Hk Hs) as [customs' [H _]].
    exists customs'. exact H.
  - intros p onClick st' Hin Hb Hc.
    unfold delete_button in Hb. destruct (isCustom p) eqn:Ec; [ | discriminate ].
    injection Hb as <-.
    destruct (Catalog.delete_foreign st (id p) Hk
                (Catalog.custom_entry_foreign st p Hk Hin Ec))
      as [st2 [H1 [H2 [[customs' [H3 _]] _]]]].
    rewrite H1 in Hc. injection Hc as <-.
    split; [ reflexivity | ]. split; [ exact H2 | ].
    intros b Hb. rewrite H3. apply in_or_app. now left.
  - intros id0 st0 st1. unfold handleDelete.
    destruct (String.eqb (activeId st0) id0).
    + destruct (filter _ (problems st0)) as [|p0 l] eqn:E; [ discriminate | ].
      intros H. injection H as <-. reflexivity.
    + intros H. injection H as <-. reflexivity.
Qed.

End Store.



(** Saving a problem from the dialog leaves the three built-in problems at
    the head of the catalogue. *)
Lemma builtins_protected_witness :
  exists customs,
    ProblemsView.problems Examples.after_create
    = ProblemsView.DEFAULT_PROBLEMS ++ customs.
Proof.
  refine (proj1 (proj2 (builtins_protected_by_the_view Examples.parse_throws
                          (ProblemsView.setShowModal true Examples.session_start)
                          _))
                (ProblemsView.SaveProblem 1700000000000) _ _).
  - apply Catalog.session_reachable_open.
  - apply ProblemsView.step_save. reflexivity.
Defined.

(** C1, as stated, fails on the handler: called with the id of the first
    built-in problem on the opening catalogue, it removes that problem. *)
Lemma handler_deletes_builtin :
  option_map (fun st => map ProblemsView.id (ProblemsView.problems st))
    (ProblemsView.handleDelete "car_rental" Examples.session_start)
  = Some ["snowball"; "anesthesia"]%string.
Proof. reflexivity. Qed.

(** ** Creation *)

Section Creation.

Import ProblemsView.
Local Open Scope float_scope.

(** C3 (amended). In the simulator a save whose prompt is cancelled or
    left empty changes nothing.  In the problem catalogue a creation with
    no title is carried out all the same: the entry is appended, under the
    title "Nuevo Problema" ; only closing the dialog adds nothing. *)
Theorem creation_without_a_name (now : N) :
  (forall answer t today st,
      JS.falsy_string answer = true ->
      SimulatorView.handleSave answer t today st = st)
  /\ (forall st,
        problems (handleAddProblem now st)
        = problems st ++ [new_entry now (newProblem st)]
        /\ (JS.falsy_string (np_title (newProblem st)) = true ->
            title (new_entry now (newProblem st)) = "Nuevo Problema"%string))
  /\ (forall st, problems (setShowModal false st) = problems st).
Proof.
  split; [ | split ].
  - intros answer t today st H. unfold SimulatorView.handleSave.
    rewrite H. reflexivity.
  - intros st. split; [ reflexivity | ].
    unfold new_entry, JS.falsy_string. cbn [title].
    destruct (np_title (newProblem st)) as [[|ch t]|]; simpl;
      intros H; try reflexivity; discriminate H.
  - reflexivity.
Qed.

(** C4 (amended). [handleAddProblem] appends one custom entry at the end
    of the catalogue, makes its id the active id and closes the dialog.
    The entry has the type of the form.  Each numeric parameter the form
    leaves unset, or holds as NaN, gets its constant: slope 1, intercept 0,
    base 1.1, initial 10, second slope 1, second intercept 0; a supplied
    value that is truthy is kept.  Title, description and the four labels
    are the form's when not empty, and "Nuevo Problema", "Descripción del
    problema", "X", "Y", "Serie 1", "Serie 2" otherwise.  The range is
    min 0, step 1, default 0, and the form's upper bound when truthy, 50
    when unset.  The id is "custom_" followed by the clock reading: ids
    from different readings differ, and when no entry of the catalogue
    already has the id, the active problem, also after selecting the id,
    is the created entry. *)
Theorem creation_fills_defaults_and_selects (now : N) (st : State) :
  let np := newProblem st in
  let p := new_entry now np in
  let st' := handleAddProblem now st in
  let filled (got typed : option JS.number) (d : JS.number) :=
    (typed = None -> got = Some d)
    /\ (forall v, typed = Some v -> JS.isNaN v = true -> got = Some d)
    /\ (forall v, typed = Some v -> JS.truthy v = true -> got = Some v) in
  let worded (got : string) (typed : option string) (d : string) :=
    (JS.falsy_string typed = true -> got = d)
    /\ (forall s, typed = Some s -> s <> EmptyString -> got = s) in
  problems st' = problems st ++ [p]
  /\ activeId st' = id p
  /\ showModal st' = false
  /\ id p = custom_id now
  /\ isCustom p = true
  /\ type p = np_type np
  /\ filled (slope (params p)) (supplied np slope) 1
  /\ filled (intercept (params p)) (supplied np intercept) 0
  /\ filled (base (params p)) (supplied np base) 1.1
  /\ filled (initial (params p)) (supplied np initial) 10
  /\ filled (slope2 (params p)) (supplied np slope2) 1
  /\ filled (intercept2 (params p)) (supplied np intercept2) 0
  /\ worded (title p) (np_title np) "Nuevo Problema"%string
  /\ worded (description p) (np_description np) "Descripción del problema"%string
  /\ worded (x (labels p)) (option_map x (np_labels np)) "X"%string
  /\ worded (y (labels p)) (option_map y (np_labels np)) "Y"%string
  /\ worded (series1 (labels p)) (option_map series1 (np_labels np)) "Serie 1"%string
  /\ (exists s2,
        series2 (labels p) = Some s2
        /\ worded s2 (match np_labels np with
                      | Some l => series2 l
                      | None => None
                      end) "Serie 2"%string)
  /\ min (range p) = 0
  /\ step (range p) = 1
  /\ defaultVal (range p) = 0
  /\ filled (Some (max (range p))) (option_map max (np_range np)) 50
  /\ (forall t, custom_id t = custom_id now -> t = now)
  /\ (~ In (id p) (map id (problems st)) ->
      activeProblem st' = Some p
      /\ activeProblem (setActiveId (id p) st') = Some p).
Proof.
  intros np p st' filled worded.
  assert (Hfilled : forall e d, filled (Some (JS.or_number e d)) e d).
  { intros e d. unfold filled. repeat split.
    - intros ->. reflexivity.
    - intros v -> Hn. unfold JS.or_number, JS.truthy.
      unfold JS.isNaN in Hn. apply negb_true_iff in Hn. rewrite Hn.
      now rewrite andb_false_r.
    - intros v -> Ht. unfold JS.or_number. now rewrite Ht. }
  assert (Hworded : forall e d, worded (JS.or_string e d) e d).
  { intros e d. unfold worded. split.
    - destruct e as [[|ch t]|]; simpl; intros H;
        try reflexivity; discriminate H.
    - intros s -> Hs. destruct s as [|ch t]; [ now elim Hs | reflexivity ]. }
  repeat match goal with |- _ /\ _ => split end;
    try reflexivity; try apply Hfilled; try apply Hworded.
  - eexists. split; [ reflexivity | apply Hworded ].
  - intros t. apply Catalog.custom_id_inj.
  - intros Hfresh. subst st' p np.
    set (p := new_entry now (newProblem st)) in *.
    assert (Hfind : find (fun q => String.eqb (id q) (id p)) (problems st ++ [p])
                    = Some p).
    { apply Catalog.find_appended.
      - exact (Catalog.find_absent _ _ Hfresh).
      - apply String.eqb_refl. }
    unfold activeProblem, handleAddProblem, setActiveId, setShowModal,
      with_catalog.
    cbn [problems activeId]. fold p. rewrite Hfind. split; reflexivity.
Qed.

End Creation.

(** A cancelled prompt in the simulator, and the dialog saved untouched in
    the catalogue. *)
Lemma creation_without_a_name_witness :
  SimulatorView.handleSave None 1700000000000 "1/1/2024" SimulatorView.initial
  = SimulatorView.initial
  /\ ProblemsView.title
       (ProblemsView.new_entry 1700000000000
          (ProblemsView.newProblem Examples.session_start))
     = "Nuevo Problema"%string.
Proof.
  split.
  - refine (proj1 (creation_without_a_name 1700000000000) _ _ _ _ _).
    reflexivity.
  - refine (proj2 (proj1 (proj2 (creation_without_a_name 1700000000000))
                     Examples.session_start) _).
    reflexivity.
Defined.

(** C3, as stated, fails in the catalogue: the dialog saved with no title
    adds a fourth entry, titled "Nuevo Problema". *)
Lemma untitled_problem_is_added :
  map ProblemsView.title (ProblemsView.problems Examples.after_create)
  = ["Alquiler de Vehículos"; "Bola de Nieve"; "Concentración Anestesia";
     "Nuevo Problema"]%string.
Proof. reflexivity. Qed.

(** The dialog saved with a line of slope 100 on [0, 3] typed in: the id
    is fresh, the created entry is the active problem, it keeps the slope
    and the bound typed, and gets the intercept 0 and the default title. *)
Lemma creation_selects_witness :
  ProblemsView.activeProblem
    (ProblemsView.handleAddProblem 1700000000000 Fixtures.steep_typed)
  = Some (ProblemsView.new_entry 1700000000000 Examples.form_steep)
  /\ ProblemsView.slope
       (ProblemsView.params
          (ProblemsView.new_entry 1700000000000 Examples.form_steep))
     = Some 100%float
  /\ ProblemsView.intercept
       (ProblemsView.params
          (ProblemsView.new_entry 1700000000000 Examples.form_steep))
     = Some 0%float
  /\ Some (ProblemsView.max
             (ProblemsView.range
                (ProblemsView.new_entry 1700000000000 Examples.form_steep)))
     = Some 3%float
  /\ ProblemsView.title
       (ProblemsView.new_entry 1700000000000 Examples.form_steep)
     = "Nuevo Problema"%string.
Proof.
  pose proof (creation_fills_defaults_and_selects 1700000000000
                Fixtures.steep_typed) as H.
  cbv zeta in H.
  destruct H as [_ [_ [_ [_ [_ [_ [Hs [Hi [_ [_ [_ [_ [Ht [_ [_ [_ [_ [_
                [_ [_ [_ [Hm [_ Hact]]]]]]]]]]]]]]]]]]]]]]].
  split; [ | split; [ | split; [ | split ] ] ].
  - refine (proj1 (Hact _)).
    exact (Catalog.custom_id_foreign 1700000000000).
  - refine (proj2 (proj2 Hs) _ _ _); reflexivity.
  - refine (proj1 Hi _). reflexivity.
  - refine (proj2 (proj2 Hm) _ _ _); reflexivity.
  - refine (proj1 Ht _). reflexivity.
Defined.

(** C4, as stated, fails on the id: two problems saved at the same clock
    reading share the id, and the active problem is then the first of the
    two (the line), not the entry just created (the exponential).  It also
    fails on a slope typed as 0, which is falsy: the entry gets the
    slope 1. *)
Lemma same_clock_same_id :
  map ProblemsView.id (ProblemsView.problems Examples.same_clock_twice)
  = ["car_rental"; "snowball"; "anesthesia";
     "custom_1700000000000"; "custom_1700000000000"]%string
  /\ option_map ProblemsView.type
       (ProblemsView.activeProblem Examples.same_clock_twice)
     = Some ProblemsView.linear_simple
  /\ ProblemsView.type
       (ProblemsView.new_entry 1700000000000 Examples.form_negative_base)
     = ProblemsView.exponential_growth
  /\ ProblemsView.supplied Fixtures.form_flat ProblemsView.slope
     = Some 0%float
  /\ ProblemsView.slope
       (ProblemsView.params
          (ProblemsView.new_entry 1700000000000 Fixtures.form_flat))
     = Some 1%float.
Proof. repeat split; reflexivity. Qed.

(** ** Persistence *)

Section Persistence.

Import ProblemsView.

Variable JSON_parse : string -> option (list ProblemModel).
Variable JSON_stringify : list ProblemModel -> string.

Lemma setItem_same (key value : string) (store : Storage) :
  setItem key value store key = Some value.
Proof. unfold setItem. now rewrite String.eqb_refl. Qed.

(** C10. After the first render and after every event that sets
    [problems] (a creation, a deletion) the value stored under the key is
    the serialization of exactly the entries with [isCustom = true], among
    which there is no built-in problem; the other events change neither
    the catalogue nor the store.  When the key is absent, or its value
    does not parse, the catalogue loaded is the built-in list alone. *)
Theorem custom_entries_are_persisted :
  (forall store,
      after_mount JSON_parse JSON_stringify store LOCAL_STORAGE_KEY
      = Some (JSON_stringify (filter isCustom (load_problems JSON_parse store))))
  /\ (forall st ev st' store,
        view_step st ev st' -> sets_problems ev = true ->
        after_event JSON_stringify ev st' store LOCAL_STORAGE_KEY
        = Some (JSON_stringify (filter isCustom (problems st'))))
  /\ (forall st ev st' store,
        view_step st ev st' -> sets_problems ev = false ->
        problems st' = problems st
        /\ after_event JSON_stringify ev st' store = store)
  /\ (forall l p, In p (filter isCustom l) <-> In p l /\ isCustom p = true)
  /\ (forall l b, In b DEFAULT_PROBLEMS -> ~ In b (filter isCustom l))
  /\ (forall store,
        store LOCAL_STORAGE_KEY = None ->
        load_problems JSON_parse store = DEFAULT_PROBLEMS)
  /\ (forall store saved,
        store LOCAL_STORAGE_KEY = Some saved -> JSON_parse saved = None ->
        load_problems JSON_parse store = DEFAULT_PROBLEMS).
Proof.
  repeat match goal with |- _ /\ _ => split end.
  - intros store. apply setItem_same.
  - intros st ev st' store _ Hev. unfold after_event. rewrite Hev.
    apply setItem_same.
  - intros st ev st' store Hs Hev. unfold after_event. rewrite Hev.
    split; [ | reflexivity ].
    destruct Hs; try reflexivity; discriminate Hev.
  - intros l p. apply filter_In.
  - intros l b Hb Hin. apply filter_In in Hin.
    rewrite (Catalog.default_not_custom b Hb) in Hin.
    destruct Hin as [_ Hin]. discriminate Hin.
  - intros store H. unfold load_problems. rewrite H. reflexivity.
  - intros store saved H Hp. unfold load_problems. rewrite H, Hp.
    destruct saved; reflexivity.
Qed.

End Persistence.

(** A creation on the opening catalogue stores the one custom entry; an
    empty store and an unreadable one load the built-in list. *)
Lemma persistence_witness :
  ProblemsView.after_event Examples.stringify_ids
    (ProblemsView.SaveProblem 1700000000000) Examples.after_create
    Examples.empty_store ProblemsView.LOCAL_STORAGE_KEY
  = Some "custom_1700000000000"%string
  /\ ProblemsView.load_problems Examples.parse_throws Examples.empty_store
     = ProblemsView.DEFAULT_PROBLEMS
  /\ ProblemsView.load_problems Examples.parse_throws
       (ProblemsView.setItem ProblemsView.LOCAL_STORAGE_KEY "{"%string
          Examples.empty_store)
     = ProblemsView.DEFAULT_PROBLEMS.
Proof.
  pose proof (custom_entries_are_persisted Examples.parse_throws
                Examples.stringify_ids) as [_ [Hev [_ [_ [_ [Habs Hbad]]]]]].
  split; [ | split ].
  - rewrite (Hev (ProblemsView.setShowModal true Examples.session_start)
                 (ProblemsView.SaveProblem 1700000000000)
                 Examples.after_create Examples.empty_store).
    + reflexivity.
    + apply ProblemsView.step_save. reflexivity.
    + reflexivity.
  - apply Habs. reflexivity.
  - apply (Hbad _ "{"%string); reflexivity.
Defined.

(* ------------------------------------------------------------------ *)
(** * Further properties of the simulator *)

Section SimulatorFacts.

Import JS.
Local Open Scope float_scope.

(** The linear analysis: the trend is "Creciente" for a positive slope,
    "Decreciente" for a negative one and "Constante" for a zero slope; the
    root shown is -n/m exactly when the slope is not zero, and N/A for a
    zero slope, so no root is ever computed by a division by zero. *)
Theorem linear_analysis (st : SimulatorView.State) :
  let l := SimulatorView.linear st in
  let an := SimulatorRest.getLinearAnalysis st in
  ((0 <? Types.m l) = true ->
   SimulatorRest.tendencia an = "Creciente"%string
   /\ SimulatorRest.raiz an = Some (- Types.n l / Types.m l))
  /\ ((Types.m l <? 0) = true ->
      SimulatorRest.tendencia an = "Decreciente"%string
      /\ SimulatorRest.raiz an = Some (- Types.n l / Types.m l))
  /\ ((Types.m l =? 0) = true ->
      SimulatorRest.tendencia an = "Constante"%string
      /\ SimulatorRest.raiz an = None)
  /\ (forall r, SimulatorRest.raiz an = Some r -> (Types.m l =? 0) = false).
Proof.
  intros l an. unfold an, SimulatorRest.getLinearAnalysis. fold l.
  cbn [SimulatorRest.tendencia SimulatorRest.raiz].
  repeat match goal with |- _ /\ _ => split end.
  - intros H. rewrite H, (FloatOrder.gtb_not_eqb _ _ H). split; reflexivity.
  - intros H. rewrite (FloatOrder.ltb_asym _ _ H), H,
      (FloatOrder.ltb_not_eqb _ _ H). split; reflexivity.
  - intros H. rewrite H.
    destruct (0 <? Types.m l) eqn:E1.
    { apply FloatOrder.gtb_not_eqb in E1. congruence. }
    destruct (Types.m l <? 0) eqn:E2.
    { apply FloatOrder.ltb_not_eqb in E2. congruence. }
    split; reflexivity.
  - intros r. destruct (Types.m l =? 0); [ discriminate | reflexivity ].
Qed.

(** The snapshot [handleSave] stores, loaded into any later state, brings
    back the tab and the function that were saved: the loaded state
    evaluates like the saved one at every abscissa, while the zoom and the
    saved list stay those of the state it is loaded into. *)
Theorem save_then_load (answer : option string) (now : Z) (today : string)
    (st : SimulatorView.State) :
  falsy_string answer = false ->
  exists sim,
    SimulatorView.savedSimulations (SimulatorView.handleSave answer now today st)
    = SimulatorView.savedSimulations st ++ [sim]
    /\ SimulatorView.id sim = now
    /\ Some (SimulatorView.name sim) = answer
    /\ forall st2,
        exists st3,
          SimulatorRest.handleLoad sim st2 = Some st3
          /\ SimulatorView.activeTab st3 = SimulatorView.activeTab st
          /\ (forall pow v,
                 SimulatorView.eval_y pow st3 v = SimulatorView.eval_y pow st v)
          /\ SimulatorView.range st3 = SimulatorView.range st2
          /\ SimulatorView.savedSimulations st3
             = SimulatorView.savedSimulations st2.
Proof.
  intros Hname. unfold SimulatorView.handleSave. rewrite Hname.
  eexists. split; [ reflexivity | ]. split; [ reflexivity | ]. split.
  - destruct answer as [[|ch t]|]; try discriminate Hname. reflexivity.
  - intros st2. unfold SimulatorRest.handleLoad.
    cbn [SimulatorView.type SimulatorView.params].
    destruct (SimulatorView.activeTab st) eqn:Etab;
      (eexists; split; [ reflexivity | ]);
      repeat split; try reflexivity;
      intros pow v; unfold SimulatorView.eval_y; cbn; rewrite Etab; reflexivity.
Qed.

Lemma filter_all {A : Type} (keep : A -> bool) (l : list A) :
  (forall u, In u l -> keep u = true) -> filter keep l = l.
Proof.
  induction l as [|u l IH]; simpl; intros H; [ reflexivity | ].
  rewrite (H u (or_introl eq_refl)). f_equal. apply IH.
  intros w Hw. apply H. now right.
Qed.

Lemma with_saved_same (st : SimulatorView.State) :
  SimulatorView.with_saved st (SimulatorView.savedSimulations st) = st.
Proof. destruct st. reflexivity. Qed.

(** [handleDelete] of the simulator: declined, it changes nothing;
    confirmed, it keeps, in their order, exactly the snapshots with another
    id, and when the ids of the list are pairwise distinct and the id is
    present, exactly one snapshot goes. *)
Theorem saved_delete (id0 : Z) (st : SimulatorView.State) :
  SimulatorView.handleDelete false id0 st = st
  /\ (let st' := SimulatorView.handleDelete true id0 st in
      SimulatorView.savedSimulations st'
      = filter (fun s => negb (SimulatorView.id s =? id0)%Z)
               (SimulatorView.savedSimulations st)
      /\ (forall s, In s (SimulatorView.savedSimulations st') <->
                    In s (SimulatorView.savedSimulations st)
                    /\ SimulatorView.id s <> id0)
      /\ (NoDup (map SimulatorView.id (SimulatorView.savedSimulations st)) ->
          In id0 (map SimulatorView.id (SimulatorView.savedSimulations st)) ->
          S (List.length (SimulatorView.savedSimulations st'))
          = List.length (SimulatorView.savedSimulations st))
      /\ (forall pow v,
             SimulatorView.eval_y pow st' v = SimulatorView.eval_y pow st v)).
Proof.
  split; [ reflexivity | ]. cbv zeta.
  unfold SimulatorView.handleDelete, SimulatorView.with_saved.
  cbn [SimulatorView.savedSimulations].
  split; [ reflexivity | ]. split; [ | split; [ | reflexivity ] ].
  - intros s. rewrite filter_In, negb_true_iff, Z.eqb_neq. reflexivity.
  - induction (SimulatorView.savedSimulations st) as [|s l IH];
      simpl; intros Hnd Hin; [ contradiction | ].
    apply NoDup_cons_iff in Hnd. destruct Hnd as [Hs Hnd].
    destruct (Z.eqb_spec (SimulatorView.id s) id0) as [E | E]; simpl.
    + f_equal. f_equal. apply filter_all. intros u Hu.
      apply negb_true_iff, Z.eqb_neq. intros Eu. apply Hs.
      rewrite E, <- Eu. now apply in_map.
    + f_equal. apply IH; [ exact Hnd | ].
      destruct Hin as [Hin | Hin]; [ contradiction | exact Hin ].
Qed.

(** Saving and then deleting the snapshot just saved, at a clock reading no
    saved snapshot has as id, gives back the state before the save. *)
Theorem save_then_delete (answer : option string) (now : Z) (today : string)
    (st : SimulatorView.State) :
  ~ In now (map SimulatorView.id (SimulatorView.savedSimulations st)) ->
  SimulatorView.handleDelete true now
    (SimulatorView.handleSave answer now today st) = st.
Proof.
  intros Hfresh.
  assert (Hkeep : filter (fun s => negb (SimulatorView.id s =? now)%Z)
                         (SimulatorView.savedSimulations st)
                  = SimulatorView.savedSimulations st).
  { apply filter_all. intros u Hu. apply negb_true_iff, Z.eqb_neq.
    intros E. apply Hfresh. rewrite <- E. now apply in_map. }
  destruct st as [tab lin quad expo zoom saved].
  cbn [SimulatorView.savedSimulations] in Hkeep.
  unfold SimulatorView.handleSave, SimulatorView.handleDelete,
    SimulatorView.with_saved.
  destruct (falsy_string answer);
    cbn [SimulatorView.savedSimulations SimulatorView.activeTab
         SimulatorView.linear SimulatorView.quadratic
         SimulatorView.exponential SimulatorView.range].
  - rewrite Hkeep. reflexivity.
  - rewrite filter_app, Hkeep. cbn [filter SimulatorView.id].
    rewrite Z.eqb_refl. cbn [negb]. rewrite app_nil_r. reflexivity.
Qed.

End SimulatorFacts.

(** The opening line 2x + 1: growing, with root -0.5. *)
Lemma linear_analysis_witness :
  SimulatorRest.tendencia (SimulatorRest.getLinearAnalysis SimulatorView.initial)
  = "Creciente"%string
  /\ SimulatorRest.raiz (SimulatorRest.getLinearAnalysis SimulatorView.initial)
     = Some (-0.5)%float.
Proof.
  destruct (proj1 (linear_analysis SimulatorView.initial)) as [Ht Hr].
  - vm_compute. reflexivity.
  - split; [ exact Ht | ]. rewrite Hr. vm_compute. reflexivity.
Defined.

(** The opening state saved as "Caso 1" and loaded on the exponential tab:
    the linear tab is back. *)
Lemma save_then_load_witness :
  exists sim st3,
    SimulatorRest.handleLoad sim Examples.decay_tab = Some st3
    /\ SimulatorView.name sim = "Caso 1"%string
    /\ SimulatorView.activeTab st3 = Types.LINEAR.
Proof.
  destruct (save_then_load (Some "Caso 1"%string) 1700000000000
              "1/1/2024"%string SimulatorView.initial eq_refl)
    as [sim [_ [_ [Hn Hload]]]].
  destruct (Hload Examples.decay_tab) as [st3 [H3 [Htab _]]].
  exists sim, st3. split; [ exact H3 | ]. split; [ | exact Htab ].
  injection Hn as Hn. exact Hn.
Defined.

(** One snapshot saved on the opening state, then deleted by its id. *)
Lemma saved_delete_witness :
  let st := SimulatorView.handleSave (Some "Caso 1"%string) 1700000000000
              "1/1/2024"%string SimulatorView.initial in
  S (List.length (SimulatorView.savedSimulations
                    (SimulatorView.handleDelete true 1700000000000 st)))
  = List.length (SimulatorView.savedSimulations st).
Proof.
  cbv zeta.
  apply (proj1 (proj2 (proj2 (proj2 (saved_delete 1700000000000 _))))).
  - repeat constructor. intros [].
  - left. reflexivity.
Defined.

Lemma save_then_delete_witness :
  SimulatorView.handleDelete true 1700000000000
    (SimulatorView.handleSave (Some "Caso 1"%string) 1700000000000
       "1/1/2024"%string SimulatorView.initial)
  = SimulatorView.initial.
Proof.
  apply save_then_delete. intros [].
Defined.

Section SimulatorStore.

Variable JSON_parse : string -> option (list SimulatorView.SavedSimulation).
Variable JSON_stringify : list SimulatorView.SavedSimulation -> string.

(** The saved simulations across a reload.  When the key is absent or its
    value does not parse, the list starts empty, and the mount itself
    writes the serialization of the empty list over whatever was stored.
    In all cases the store ends the mount holding the serialization of the
    list in the state.  When [JSON.parse] reads back what [JSON.stringify]
    wrote for the current list, a mount on the persisted store restores
    that list. *)
Theorem saved_simulations_reload :
  (forall store,
      store SimulatorRest.STORAGE_KEY = None ->
      SimulatorRest.load_saved JSON_parse store = [])
  /\ (forall store saved,
        store SimulatorRest.STORAGE_KEY = Some saved ->
        JSON_parse saved = None ->
        SimulatorRest.load_saved JSON_parse store = []
        /\ snd (SimulatorRest.mount JSON_parse JSON_stringify store)
               SimulatorRest.STORAGE_KEY
           = Some (JSON_stringify []))
  /\ (forall store,
        snd (SimulatorRest.mount JSON_parse JSON_stringify store)
            SimulatorRest.STORAGE_KEY
        = Some (JSON_stringify
                  (SimulatorView.savedSimulations
                     (fst (SimulatorRest.mount JSON_parse JSON_stringify store)))))
  /\ (forall st store,
        JSON_parse (JSON_stringify (SimulatorView.savedSimulations st))
        = Some (SimulatorView.savedSimulations st) ->
        JSON_stringify (SimulatorView.savedSimulations st) <> EmptyString ->
        SimulatorView.savedSimulations
          (fst (SimulatorRest.mount JSON_parse JSON_stringify
                  (SimulatorRest.persist_saved JSON_stringify st store)))
        = SimulatorView.savedSimulations st).
Proof.
  assert (Hget : forall v store,
             ProblemsView.setItem SimulatorRest.STORAGE_KEY v store
               SimulatorRest.STORAGE_KEY = Some v).
  { intros v store. unfold ProblemsView.setItem.
    now rewrite String.eqb_refl. }
  repeat match goal with |- _ /\ _ => split end.
  - intros store H. unfold SimulatorRest.load_saved. rewrite H. reflexivity.
  - intros store saved H H0.
    assert (Hl : SimulatorRest.load_saved JSON_parse store = []).
    { unfold SimulatorRest.load_saved. rewrite H, H0.
      destruct saved; reflexivity. }
    split; [ exact Hl | ].
    unfold SimulatorRest.mount, SimulatorRest.persist_saved.
    cbn [snd SimulatorView.with_saved SimulatorView.savedSimulations].
    rewrite Hget, Hl. reflexivity.
  - intros store. unfold SimulatorRest.mount, SimulatorRest.persist_saved.
    cbn [snd fst]. apply Hget.
  - intros st store Hcodec Hne.
    unfold SimulatorRest.mount, SimulatorRest.persist_saved.
    cbn [fst SimulatorView.with_saved SimulatorView.savedSimulations].
    unfold SimulatorRest.load_saved. rewrite Hget, Hcodec.
    destruct (JSON_stringify (SimulatorView.savedSimulations st));
      [ contradiction Hne; reflexivity | reflexivity ].
Qed.

End SimulatorStore.

(** A reload after one save brings the snapshot back; a store holding
    an unreadable text is overwritten at mount. *)
Lemma saved_simulations_reload_witness :
  SimulatorView.savedSimulations
    (fst (SimulatorRest.mount Fixtures.parse_names Fixtures.stringify_names
            (SimulatorRest.persist_saved Fixtures.stringify_names
               Fixtures.saved_once Examples.empty_store)))
  = SimulatorView.savedSimulations Fixtures.saved_once
  /\ snd (SimulatorRest.mount Fixtures.parse_names Fixtures.stringify_names
            (ProblemsView.setItem SimulatorRest.STORAGE_KEY "{"%string
               Examples.empty_store))
         SimulatorRest.STORAGE_KEY
     = Some "[]"%string.
Proof.
  pose proof (saved_simulations_reload Fixtures.parse_names
                Fixtures.stringify_names) as [_ [Hbad [_ Hround]]].
  split.
  - apply Hround; [ reflexivity | discriminate ].
  - exact (proj2 (Hbad _ "{"%string eq_refl eq_refl)).
Defined.

(** ** The report table of the simulator *)

Section ReportTable.

Import JS.

Lemma even_indexed_from {A : Type} (l : list A) :
  forall start i,
    nth_error (map snd (filter (fun ip => Nat.even (fst ip))
                               (combine (seq start (List.length l)) l))) i
    = nth_error l (if Nat.even start then 2 * i else 2 * i + 1).
Proof.
  induction l as [|u l IH]; intros start i.
  - simpl. destruct (Nat.even start); now rewrite !nth_error_nil.
  - cbn [List.length seq combine filter fst].
    specialize (IH (S start)). rewrite Nat.even_succ, <- Nat.negb_even in IH.
    destruct (Nat.even start); cbn [negb] in IH.
    + cbn [map snd]. destruct i as [|i]; [ reflexivity | ].
      cbn [nth_error]. rewrite IH.
      replace (2 * S i) with (S (2 * i + 1)) by lia. reflexivity.
    + rewrite IH. replace (2 * i + 1) with (S (2 * i)) by lia. reflexivity.
Qed.

Lemma even_indexed_length_from {A : Type} (l : list A) :
  forall start,
    List.length (map snd (filter (fun ip => Nat.even (fst ip))
                                 (combine (seq start (List.length l)) l)))
    = if Nat.even start then Nat.div2 (S (List.length l))
      else Nat.div2 (List.length l).
Proof.
  induction l as [|u l IH]; intros start.
  - simpl. destruct (Nat.even start); reflexivity.
  - cbn [List.length seq combine filter fst].
    specialize (IH (S start)). rewrite Nat.even_succ, <- Nat.negb_even in IH.
    destruct (Nat.even start); cbn [negb] in IH.
    + cbn [map List.length]. rewrite IH. reflexivity.
    + rewrite IH. reflexivity.
Qed.

Variable Math_pow : number -> number -> number.

(** The table of the simulator's report holds every other point of the
    plotted sequence, starting with the first: row i is point 2i, and n
    points give the rows of ceil(n/2) of them. *)
Theorem report_table_rows (fuel : nat) (st : SimulatorView.State)
    (pts : list Types.DataPoint) :
  SimulatorView.data Math_pow fuel st = Some pts ->
  exists rows,
    SimulatorRest.tableData Math_pow fuel st = Some rows
    /\ (forall i, nth_error rows i = nth_error pts (2 * i))
    /\ List.length rows = Nat.div2 (S (List.length pts)).
Proof.
  intros H. unfold SimulatorRest.tableData. rewrite H.
  eexists. split; [ reflexivity | ]. split.
  - intros i. apply (even_indexed_from pts 0 i).
  - apply (even_indexed_length_from pts 0).
Qed.

End ReportTable.

(** The opening line sampled at 41 points: 21 rows, the second of which is
    the third point, at x = -9. *)
Lemma report_table_witness :
  exists rows,
    SimulatorRest.tableData JS.pow_ref 300 SimulatorView.initial = Some rows
    /\ List.length rows = 21%nat
    /\ option_map Types.x (nth_error rows 1) = Some (-9)%float.
Proof.
  destruct (SimulatorView.data JS.pow_ref 300 SimulatorView.initial)
    as [pts|] eqn:E; [ | vm_compute in E; discriminate E ].
  destruct (report_table_rows JS.pow_ref 300 SimulatorView.initial pts E)
    as [rows [Hr [Hn Hl]]].
  exists rows. split; [ exact Hr | ].
  assert (Hp : Some pts = SimulatorView.data JS.pow_ref 300 SimulatorView.initial)
    by (symmetry; exact E).
  vm_compute in Hp. injection Hp as ->.
  split.
  - rewrite Hl. reflexivity.
  - rewrite (Hn 1%nat). reflexivity.
Defined.

(* ------------------------------------------------------------------ *)
(** * Further properties of the problem catalogue *)

Section CatalogFacts.

Import JS.
Import ProblemsView.
Local Open Scope float_scope.

Variable Math_pow : number -> number -> number.

(** The value shown for the slider agrees with the plotted curve: at the
    abscissa of every sampled point, [currentCalc] returns the ordinate of
    that point, and for a comparison also its second ordinate; for the
    other types the point has no second ordinate and [currentCalc] returns
    0 in its place. *)
Theorem slider_value_on_curve (fuel : nat) (pb : ProblemModel)
    (pts : list Types.DataPoint) :
  data Math_pow fuel pb = Some pts ->
  Forall (fun p =>
            let calc := ProblemsRest.currentCalc Math_pow pb (Types.x p) in
            fst calc = Types.y p
            /\ (type pb = linear_comparison -> Types.y2 p = Some (snd calc))
            /\ (type pb <> linear_comparison ->
                Types.y2 p = None /\ snd calc = 0))
         pts.
Proof.
  intros H. rewrite Loop.scenario_data_eq in H.
  destruct (finishes _ _ _ _); [ | discriminate ].
  apply Loop.Some_eq in H. subst pts.
  apply Forall_forall. intros p Hp.
  apply in_map_iff in Hp. destruct Hp as [v [<- _]].
  unfold point, at_x, ProblemsRest.currentCalc, eval_vals.
  cbn [Types.x Types.y Types.y2].
  destruct (type pb); cbn [fst snd];
    repeat split; try reflexivity; try discriminate; congruence.
Qed.

(** [handleDelete] throws exactly when it is given the active id and every
    entry of the catalogue has that id, so that nothing would remain. *)
Theorem delete_throws_iff (id0 : string) (st : State) :
  handleDelete id0 st = None <->
  activeId st = id0 /\ (forall p, In p (problems st) -> id p = id0).
Proof.
  unfold handleDelete.
  destruct (String.eqb_spec (activeId st) id0) as [E | E].
  - destruct (filter _ (problems st)) as [|p0 l] eqn:Ef.
    + split; [ intros _ | reflexivity ]. split; [ exact E | ].
      intros p Hp. destruct (String.eqb_spec (id p) id0) as [Ep | Ep];
        [ exact Ep | ].
      assert (Hin : In p (filter (fun q => negb (String.eqb (id q) id0))
                                 (problems st))).
      { apply filter_In. split; [ exact Hp | ].
        apply negb_true_iff. now apply String.eqb_neq. }
      rewrite Ef in Hin. contradiction.
    + split; [ discriminate | ]. intros [_ Hall].
      assert (Hin : In p0 (filter (fun q => negb (String.eqb (id q) id0))
                                  (problems st)))
        by (rewrite Ef; now left).
      apply filter_In in Hin. destruct Hin as [Hin Hneq].
      rewrite (Hall p0 Hin), String.eqb_refl in Hneq. discriminate.
  - split; [ discriminate | ]. intros [Ea _]. contradiction.
Qed.

(** Creating a problem and deleting it again, when its id was not in the
    catalogue: the catalogue is the one before the creation, and the first
    entry becomes the active problem. *)
Theorem create_then_delete (now : N) (st : State) (first : ProblemModel)
    (rest : list ProblemModel) :
  problems st = first :: rest ->
  ~ In (custom_id now) (map id (problems st)) ->
  exists st',
    handleDelete (custom_id now) (handleAddProblem now st) = Some st'
    /\ problems st' = problems st
    /\ activeId st' = id first
    /\ activeProblem st' = Some first.
Proof.
  intros Hp Hfresh.
  assert (Hkeep : filter (fun q => negb (String.eqb (id q) (custom_id now)))
                         (problems st) = problems st).
  { apply filter_all. intros u Hu. apply negb_true_iff, String.eqb_neq.
    intros E. apply Hfresh. rewrite <- E. now apply in_map. }
  unfold handleDelete, handleAddProblem, setShowModal, with_catalog.
  cbn [problems activeId showModal newProblem].
  change (id (new_entry now (newProblem st))) with (custom_id now).
  rewrite String.eqb_refl, filter_app, Hkeep.
  cbn [filter]. change (id (new_entry now (newProblem st))) with (custom_id now).
  rewrite String.eqb_refl. cbn [negb]. rewrite app_nil_r, Hp.
  eexists. split; [ reflexivity | ].
  cbn [problems activeId]. repeat split.
  unfold activeProblem. cbn [problems activeId find].
  rewrite String.eqb_refl. reflexivity.
Qed.

Lemma find_unique (p : ProblemModel) (l : list ProblemModel) :
  NoDup (map id l) -> In p l ->
  find (fun q => String.eqb (id q) (id p)) l = Some p.
Proof.
  induction l as [|q l IH]; simpl; intros Hnd Hin; [ contradiction | ].
  apply NoDup_cons_iff in Hnd. destruct Hnd as [Hq Hnd].
  destruct Hin as [-> | Hin].
  - now rewrite String.eqb_refl.
  - destruct (String.eqb_spec (id q) (id p)) as [E | _].
    + exfalso. apply Hq. rewrite E. now apply in_map.
    + now apply IH.
Qed.

Lemma NoDup_ids_filter (keep : ProblemModel -> bool) (l : list ProblemModel) :
  NoDup (map id l) -> NoDup (map id (filter keep l)).
Proof.
  induction l as [|q l IH]; simpl; intros Hnd; [ constructor | ].
  apply NoDup_cons_iff in Hnd. destruct Hnd as [Hq Hnd].
  destruct (keep q); simpl; [ | now apply IH ].
  constructor; [ | now apply IH ].
  intros Hin. apply Hq. apply in_map_iff in Hin.
  destruct Hin as [u [Eu Hu]]. apply filter_In in Hu.
  rewrite <- Eu. apply in_map. exact (proj1 Hu).
Qed.

(** Pairwise distinct ids are kept by every event of the view, a save
    being made at a clock reading whose id is not in the catalogue; and
    with distinct ids a click on a list item makes that very entry the
    active problem. *)
Theorem distinct_ids_are_kept (st st' : State) (ev : Event) :
  NoDup (map id (problems st)) ->
  view_step st ev st' ->
  (forall now, ev = SaveProblem now ->
               ~ In (custom_id now) (map id (problems st))) ->
  NoDup (map id (problems st'))
  /\ (forall p, ev = ClickItem p -> activeProblem st' = Some p).
Proof.
  intros Hnd Hs Hclock.
  destruct Hs as [p Hin | p onClick st' Hin Hb Hc | | | | now Hm].
  - split; [ exact Hnd | ]. intros q Hq. injection Hq as <-.
    unfold activeProblem, setActiveId, with_catalog. cbn [problems activeId].
    now rewrite (find_unique p _ Hnd Hin).
  - split; [ | discriminate ].
    unfold delete_button in Hb. destruct (isCustom p); [ | discriminate ].
    injection Hb as <-. unfold handleDelete in Hc.
    destruct (String.eqb (activeId st) (id p)).
    + destruct (filter _ (problems st)) as [|p0 l] eqn:Ef; [ discriminate | ].
      injection Hc as <-. cbn [with_catalog problems]. rewrite <- Ef.
      now apply NoDup_ids_filter.
    + injection Hc as <-. cbn [with_catalog problems].
      now apply NoDup_ids_filter.
  - split; [ exact Hnd | discriminate ].
  - split; [ exact Hnd | discriminate ].
  - split; [ exact Hnd | discriminate ].
  - split; [ | discriminate ].
    unfold handleAddProblem, setShowModal, with_catalog. cbn [problems].
    rewrite map_app. cbn [map].
    change (id (new_entry now (newProblem st))) with (custom_id now).
    apply NoDup_app; [ exact Hnd | repeat constructor; intros [] | ].
    intros i Hi [<- | []]. exact (Hclock now eq_refl Hi).
Qed.

End CatalogFacts.

(** The dot of the built-in car rental problem lies on its sampled lines. *)
Lemma slider_value_witness :
  exists pts,
    ProblemsView.data JS.pow_ref 200
      (hd Examples.entry_fine_step ProblemsView.DEFAULT_PROBLEMS) = Some pts
    /\ Forall (fun p =>
                 fst (ProblemsRest.currentCalc JS.pow_ref
                        (hd Examples.entry_fine_step ProblemsView.DEFAULT_PROBLEMS)
                        (Types.x p)) = Types.y p) pts
    /\ List.length pts = 101%nat.
Proof.
  destruct (ProblemsView.data JS.pow_ref 200
              (hd Examples.entry_fine_step ProblemsView.DEFAULT_PROBLEMS))
    as [pts|] eqn:E; [ | vm_compute in E; discriminate E ].
  exists pts. split; [ reflexivity | ]. split.
  - pose proof (slider_value_on_curve JS.pow_ref 200 _ pts E) as H.
    apply Forall_forall. intros p Hp.
    rewrite Forall_forall in H. exact (proj1 (H p Hp)).
  - assert (Hp : Some pts = ProblemsView.data JS.pow_ref 200
                   (hd Examples.entry_fine_step ProblemsView.DEFAULT_PROBLEMS))
      by (symmetry; exact E).
    vm_compute in Hp. injection Hp as ->. reflexivity.
Defined.

(** With only the active problem left, its deletion throws. *)
Lemma delete_throws_witness :
  ProblemsView.handleDelete "car_rental" Fixtures.only_car_rental = None.
Proof.
  apply (proj2 (delete_throws_iff "car_rental" Fixtures.only_car_rental)).
  split; [ reflexivity | ].
  intros p [<- | []]. reflexivity.
Defined.

(** The dialog saved on the opening catalogue, then the new entry deleted:
    the three built-in problems, the first one active. *)
Lemma create_then_delete_witness :
  exists st',
    ProblemsView.handleDelete "custom_1700000000000" Examples.after_create
    = Some st'
    /\ ProblemsView.problems st' = ProblemsView.DEFAULT_PROBLEMS
    /\ ProblemsView.activeId st' = "car_rental"%string.
Proof.
  destruct (create_then_delete 1700000000000
              (ProblemsView.setShowModal true Examples.session_start)
              _ _ eq_refl (Catalog.custom_id_foreign 1700000000000))
    as [st' [Hd [Hp [Ha _]]]].
  exists st'. repeat split; assumption.
Defined.

(** A click on the second built-in problem of the opening catalogue. *)
Lemma distinct_ids_witness :
  ProblemsView.activeProblem
    (ProblemsView.setActiveId "snowball" Examples.session_start)
  = nth_error ProblemsView.DEFAULT_PROBLEMS 1.
Proof.
  refine (proj2 (distinct_ids_are_kept Examples.session_start _
                   (ProblemsView.ClickItem
                      (nth 1 ProblemsView.DEFAULT_PROBLEMS
                           Examples.entry_fine_step)) _ _ _) _ eq_refl).
  - vm_compute. repeat constructor; simpl; intuition discriminate.
  - apply (ProblemsView.step_item Examples.session_start
             (nth 1 ProblemsView.DEFAULT_PROBLEMS Examples.entry_fine_step)).
    right. left. reflexivity.
  - intros now H. discriminate H.
Defined.

(** ** Sessions *)

Section Sessions.

Import JS.
Import ProblemsView.
Local Open Scope float_scope.

(** What an event does to the catalogue: nothing, a filter, or one entry
    appended. *)
Lemma step_problems (st st' : State) (ev : Event) :
  view_step st ev st' ->
  problems st' = problems st
  \/ (exists p, isCustom p = true /\ In p (problems st)
                /\ problems st'
                   = filter (fun q => negb (String.eqb (id q) (id p)))
                            (problems st))
  \/ (exists now, problems st' = problems st ++ [new_entry now (newProblem st)]).
Proof.
  intros Hs. destruct Hs as [p Hin | p onClick st' Hin Hb Hc | | | | now Hm];
    try (left; reflexivity).
  - right. left. exists p.
    unfold delete_button in Hb. destruct (isCustom p); [ | discriminate ].
    injection Hb as <-. split; [ reflexivity | ]. split; [ exact Hin | ].
    unfold handleDelete in Hc.
    destruct (String.eqb (activeId st) (id p)).
    + destruct (filter _ (problems st)) as [|p0 l] eqn:Ef; [ discriminate | ].
      injection Hc as <-. reflexivity.
    + injection Hc as <-. reflexivity.
  - right. right. exists now. reflexivity.
Qed.

Lemma step_program_written (st st' : State) (ev : Event) :
  ProblemsRest.program_written st -> view_step st ev st' ->
  ProblemsRest.program_written st'.
Proof.
  intros [customs [Hp [Hf Hc]]] Hs.
  destruct (step_problems st st' ev Hs) as [E | [[p [Ec [Hin E]]] | [now E]]].
  - exists customs. rewrite E. auto.
  - assert (Hk : keeps_builtins st) by (exists customs; auto).
    pose proof (Catalog.custom_entry_foreign st p Hk Hin Ec) as Hid.
    exists (filter (fun q => negb (String.eqb (id q) (id p))) customs).
    rewrite E, Hp, filter_app, (Catalog.filter_foreign _ Hid).
    split; [ reflexivity | ]. split; [ now apply Catalog.foreign_filter | ].
    rewrite Forall_forall in *. intros q Hq. apply filter_In in Hq.
    apply Hc. exact (proj1 Hq).
  - exists (customs ++ [new_entry now (newProblem st)]).
    rewrite E, Hp, app_assoc. split; [ reflexivity | ].
    split; apply Forall_app; split; auto; repeat constructor.
    apply Catalog.custom_id_foreign.
Qed.

Lemma step_unit_ranges (st st' : State) (ev : Event) :
  ProblemsRest.unit_ranges st -> view_step st ev st' ->
  ProblemsRest.unit_ranges st'.
Proof.
  unfold ProblemsRest.unit_ranges. intros Hu Hs.
  destruct (step_problems st st' ev Hs) as [E | [[p [_ [_ E]]] | [now E]]];
    rewrite E.
  - exact Hu.
  - rewrite Forall_forall in *. intros q Hq. apply filter_In in Hq.
    apply Hu. exact (proj1 Hq).
  - apply Forall_app. split; [ exact Hu | ].
    repeat constructor.
Qed.

Variable JSON_parse : string -> option (list ProblemModel).
Variable JSON_stringify : list ProblemModel -> string.

(** A catalogue made of the built-in problems followed by custom entries
    with ids of their own stays so through every event of the view; and when
    [JSON.parse] reads back what [JSON.stringify] wrote for its custom
    entries, the initializer run on the persisted store loads that very
    catalogue, entries and order. *)
Theorem reload_restores_catalogue (st0 st : State) :
  ProblemsRest.program_written st0 ->
  ProblemsRest.session st0 st ->
  ProblemsRest.program_written st
  /\ forall store,
        JSON_parse (JSON_stringify (filter isCustom (problems st)))
        = Some (filter isCustom (problems st)) ->
        JSON_stringify (filter isCustom (problems st)) <> EmptyString ->
        load_problems JSON_parse (persist JSON_stringify st store)
        = problems st.
Proof.
  intros H0 Hs.
  assert (Hw : ProblemsRest.program_written st).
  { induction Hs as [|st ev st' _ IH Hstep]; [ exact H0 | ].
    exact (step_program_written st st' ev IH Hstep). }
  split; [ exact Hw | ].
  intros store Hcodec Hne. destruct Hw as [customs [Hp [_ Hc]]].
  assert (Hcustom : filter isCustom (problems st) = customs).
  { rewrite Hp, filter_app.
    change (filter isCustom DEFAULT_PROBLEMS) with (@nil ProblemModel).
    apply filter_all. rewrite Forall_forall in Hc. exact Hc. }
  unfold load_problems, persist, setItem.
  rewrite String.eqb_refl. rewrite Hcustom in *. rewrite Hcodec.
  destruct (JSON_stringify customs);
    [ contradiction Hne; reflexivity | symmetry; exact Hp ].
Qed.

Variable Math_pow : number -> number -> number.

(** When every entry of a catalogue is sampled from 0 in steps of 1, as
    the built-in problems and every created problem are, this stays so
    through every event of the view, and each entry's samples, up to 2000 of
    them, are at the abscissas 0, 1, 2, ... in strictly increasing order. *)
Theorem session_abscissas (st0 st : State) :
  ProblemsRest.unit_ranges st0 ->
  ProblemsRest.session st0 st ->
  ProblemsRest.unit_ranges st
  /\ forall pb pts,
        In pb (problems st) ->
        data Math_pow 2000 pb = Some pts ->
        pts = map (at_x Math_pow pb) (Examples.whole_grid (List.length pts))
        /\ increasing (map Types.x pts) = true.
Proof.
  intros H0 Hs.
  assert (Hu : ProblemsRest.unit_ranges st).
  { induction Hs as [|st ev st' _ IH Hstep]; [ exact H0 | ].
    exact (step_unit_ranges st st' ev IH Hstep). }
  split; [ exact Hu | ].
  intros pb pts Hin H. unfold ProblemsRest.unit_ranges in Hu.
  rewrite Forall_forall in Hu. destruct (Hu pb Hin) as [Hmin Hstep].
  rewrite Loop.scenario_data_eq in H.
  destruct (finishes _ _ _ _); [ | discriminate ].
  apply Loop.Some_eq in H. subst pts. rewrite Hmin, Hstep.
  destruct (unit_steps (max (range pb))) as [Hg Hi].
  rewrite Loop.scenario_points, length_map, length_map, Hg.
  rewrite Loop.scenario_abscissas.
  split; [ reflexivity | exact Hi ].
Qed.

End Sessions.

(** The opening catalogue after one creation: reloaded as it is. *)
Lemma reload_restores_witness :
  ProblemsView.load_problems Fixtures.parse_ids
    (ProblemsView.persist Examples.stringify_ids Examples.after_create
       Examples.empty_store)
  = ProblemsView.problems Examples.after_create.
Proof.
  refine (proj2 (reload_restores_catalogue Fixtures.parse_ids
                   Examples.stringify_ids Examples.session_start
                   Examples.after_create _ _) Examples.empty_store _ _).
  - exists []. split; [ reflexivity | ]. split; constructor.
  - eapply ProblemsRest.session_step.
    + eapply ProblemsRest.session_step; [ apply ProblemsRest.session_here | ].
      apply ProblemsView.step_open.
    + apply ProblemsView.step_save. reflexivity.
  - reflexivity.
  - discriminate.
Defined.

(** The entry created from the untouched dialog: 51 samples at 0..50. *)
Lemma session_abscissas_witness :
  exists pts,
    ProblemsView.data JS.pow_ref 2000
      (ProblemsView.new_entry 1700000000000 ProblemsView.initial_newProblem)
    = Some pts
    /\ map Types.x pts = Examples.whole_grid 51
    /\ JS.increasing (map Types.x pts) = true.
Proof.
  destruct (ProblemsView.data JS.pow_ref 2000
              (ProblemsView.new_entry 1700000000000
                 ProblemsView.initial_newProblem))
    as [pts|] eqn:E; [ | vm_compute in E; discriminate E ].
  destruct (proj2 (session_abscissas JS.pow_ref Examples.session_start
                     Examples.after_create
                     ltac:(repeat constructor)
                     ltac:(eapply ProblemsRest.session_step;
                           [ eapply ProblemsRest.session_step;
                             [ apply ProblemsRest.session_here
                             | apply ProblemsView.step_open ]
                           | apply ProblemsView.step_save; reflexivity ]))
                  _ pts ltac:(do 3 right; left; reflexivity) E)
    as [Hp Hi].
  exists pts. split; [ reflexivity | ]. split; [ | exact Hi ].
  assert (Hl : List.length pts = 51%nat).
  { assert (Hs : Some pts = ProblemsView.data JS.pow_ref 2000
                   (ProblemsView.new_entry 1700000000000
                      ProblemsView.initial_newProblem))
      by (symmetry; exact E).
    vm_compute in Hs. injection Hs as ->. reflexivity. }
  rewrite Hp, Loop.scenario_abscissas, Hl. reflexivity.
Defined.

(** ** The report table of the problems, and the tab without a formula *)

Section Reports.

Import JS.
Import ProblemsView.
Local Open Scope float_scope.

Variable Math_pow : number -> number -> number.

(** The row of one turn of the table loop. *)
Lemma table_fold (prob : ProblemModel) :
  forall raws acc,
    fold_left (fun a v => ProblemsRest.table_body Math_pow prob v a) raws acc
    = acc ++ map (fun v =>
                    {| ProblemsRest.row_x := v;
                       ProblemsRest.row_v1 :=
                         fst (ProblemsRest.currentCalc Math_pow prob v);
                       ProblemsRest.row_v2 :=
                         match type prob with
                         | linear_comparison =>
                             Some (snd (ProblemsRest.currentCalc Math_pow prob v))
                         | _ => None
                         end |}) raws.
Proof.
  induction raws as [|v raws IH]; intros acc; simpl.
  - symmetry. apply app_nil_r.
  - rewrite IH. unfold ProblemsRest.table_body, ProblemsRest.currentCalc.
    destruct (type prob); cbn [fst snd]; rewrite <- app_assoc; reflexivity.
Qed.

(** The table of a problem in the report has one row for every turn of its
    loop, which steps by [Math.ceil((max - min) / 5)] without rounding the
    abscissa; the values of a row are those [currentCalc] shows for that
    abscissa, the second one present for comparisons only, and the header
    has as many columns as the rows have entries. *)
Theorem report_rows_match_readout (fuel : nat) (prob : ProblemModel)
    (rows : list ProblemsRest.Row) :
  ProblemsRest.tableData Math_pow fuel prob = Some rows ->
  map ProblemsRest.row_x rows
  = raw_xs fuel (min (range prob)) (max (range prob))
           (ProblemsRest.Math_ceil ((max (range prob) - min (range prob)) / 5))
  /\ Forall (fun r =>
              let calc := ProblemsRest.currentCalc Math_pow prob
                            (ProblemsRest.row_x r) in
              ProblemsRest.row_v1 r = fst calc
              /\ (type prob = linear_comparison ->
                  ProblemsRest.row_v2 r = Some (snd calc))
              /\ (type prob <> linear_comparison ->
                  ProblemsRest.row_v2 r = None)
              /\ List.length (ProblemsRest.headers prob)
                 = match ProblemsRest.row_v2 r with
                   | Some _ => 3%nat
                   | None => 2%nat
                   end)
           rows.
Proof.
  unfold ProblemsRest.tableData. rewrite Loop.for_x_eq.
  destruct (finishes _ _ _ _); [ | discriminate ].
  intros H. apply Loop.Some_eq in H. rewrite table_fold in H.
  cbn [app] in H. subst rows. split.
  - rewrite map_map. cbn [ProblemsRest.row_x]. apply map_id.
  - apply Forall_forall. intros r Hr. apply in_map_iff in Hr.
    destruct Hr as [v [<- _]].
    cbn [ProblemsRest.row_x ProblemsRest.row_v1 ProblemsRest.row_v2].
    unfold ProblemsRest.headers.
    destruct (type prob); repeat split; try reflexivity;
      try discriminate; congruence.
Qed.

(** A snapshot of type rational, loaded, changes the tab alone: the three
    parameter records stay, and the sampler, which has no formula for that
    tab, then plots y = 0 at every abscissa of its loop, none filtered. *)
Theorem rational_tab_plots_zero (sim : SimulatorView.SavedSimulation)
    (st : SimulatorView.State) :
  SimulatorView.type sim = Types.RATIONAL ->
  exists st',
    SimulatorRest.handleLoad sim st = Some st'
    /\ SimulatorView.activeTab st' = Types.RATIONAL
    /\ SimulatorView.linear st' = SimulatorView.linear st
    /\ SimulatorView.quadratic st' = SimulatorView.quadratic st
    /\ SimulatorView.exponential st' = SimulatorView.exponential st
    /\ forall fuel pts,
         SimulatorView.data Math_pow fuel st' = Some pts ->
         map Types.x pts
         = map SimulatorView.cleanX1
             (raw_xs fuel (- Math_abs (SimulatorView.range st))
                     (Math_abs (SimulatorView.range st)) SimulatorView.step)
         /\ Forall (fun p => Types.y p = 0) pts.
Proof.
  intros Ht. unfold SimulatorRest.handleLoad. rewrite Ht.
  eexists. split; [ reflexivity | ].
  do 4 (split; [ reflexivity | ]).
  intros fuel pts H. rewrite Loop.simulator_data_eq in H.
  cbn [SimulatorRest.setActiveTab SimulatorView.range] in H.
  destruct (finishes _ _ _ _); [ | discriminate ].
  apply Loop.Some_eq in H. subst pts. split.
  - rewrite filter_all.
    + rewrite Loop.simulator_points. apply Loop.simulator_abscissas.
    + intros p Hp. apply in_map_iff in Hp. destruct Hp as [v [<- _]].
      reflexivity.
  - apply Forall_forall. intros p Hp. apply filter_In in Hp.
    destruct Hp as [Hp _]. apply in_map_iff in Hp.
    destruct Hp as [v [<- _]]. reflexivity.
Qed.

End Reports.

(** The report table of the built-in car rental problem: six rows, from 0
    to 100 in steps of 20. *)
Lemma report_rows_witness :
  exists rows,
    ProblemsRest.tableData JS.pow_ref 50
      (hd Examples.entry_fine_step ProblemsView.DEFAULT_PROBLEMS) = Some rows
    /\ map ProblemsRest.row_x rows = [0; 20; 40; 60; 80; 100]%float.
Proof.
  destruct (ProblemsRest.tableData JS.pow_ref 50
              (hd Examples.entry_fine_step ProblemsView.DEFAULT_PROBLEMS))
    as [rows|] eqn:E; [ | vm_compute in E; discriminate E ].
  exists rows. split; [ reflexivity | ].
  rewrite (proj1 (report_rows_match_readout JS.pow_ref 50 _ rows E)).
  vm_compute. reflexivity.
Defined.

(** A rational snapshot loaded on the opening state: 41 points, all at
    y = 0. *)
Lemma rational_tab_witness :
  exists st' pts,
    SimulatorRest.handleLoad Fixtures.rational_snapshot SimulatorView.initial
    = Some st'
    /\ SimulatorView.data JS.pow_ref 300 st' = Some pts
    /\ List.length pts = 41%nat
    /\ Forall (fun p => Types.y p = 0%float) pts.
Proof.
  destruct (rational_tab_plots_zero JS.pow_ref Fixtures.rational_snapshot
              SimulatorView.initial eq_refl)
    as [st' [Hl [_ [_ [_ [_ Hd]]]]]].
  injection Hl as <-.
  eexists. eexists. split; [ reflexivity | ].
  split; [ vm_compute; reflexivity | ].
  split; [ reflexivity | ].
  refine (proj2 (Hd 300%nat _ _)). vm_compute. reflexivity.
Defined.
